(** * Scrabble game: scoring, validation and the round controller

    A shallow embedding of [scrabble_game.py].  The three module-level
    functions ([calculate_score], [is_valid_word], [calculate_time_bonus])
    are pure functions; the class [ScrabbleGame] is a record of its
    attributes and widget texts, and each method is a function on that
    record.  The countdown thread is a program counter stored in the record,
    advanced one atomic step at a time, so that the interleavings of the
    thread with the Tk callbacks can be written down as lists of events. *)

From Stdlib Require Import ZArith List Bool Ascii String Lia.
From Stdlib Require Import Decimal DecimalString DecimalPos DecimalZ.
Import ListNotations.

Local Open Scope string_scope.
Local Open Scope Z_scope.

(** ** Python's [str] and [int] primitives

    A Python [str] is modelled as a Stdlib [string]; its characters are the
    8-bit characters of [ascii], read as the code points U+0000 to U+00FF. *)

Module Py.

Definition code (c : ascii) : N := N_of_ascii c.

Definition between (lo hi : N) (c : ascii) : bool :=
  (lo <=? code c)%N && (code c <=? hi)%N.

Definition is_ascii_upper (c : ascii) : bool := between 65 90 c.
Definition is_ascii_lower (c : ascii) : bool := between 97 122 c.
Definition is_ascii_letter (c : ascii) : bool :=
  is_ascii_upper c || is_ascii_lower c.

(** [c.isalpha()] for one character: the letters of U+0000..U+00FF are
    A-Z, a-z, the two ordinal indicators, the micro sign and the accented
    letters (all of U+00C0..U+00FF but the two operators U+00D7, U+00F7). *)
Definition isalpha_char (c : ascii) : bool :=
  is_ascii_letter c
  || (code c =? 170)%N || (code c =? 181)%N || (code c =? 186)%N
  || between 192 214 c || between 216 246 c || between 248 255 c.

(** [c.isspace()] for one character: tab, the line breaks, the four
    information separators, the space, NEL and the no-break space. *)
Definition isspace_char (c : ascii) : bool :=
  between 9 13 c || between 28 32 c
  || (code c =? 133)%N || (code c =? 160)%N.

Definition shift_down (c : ascii) : ascii := ascii_of_N (code c - 32).
Definition shift_up (c : ascii) : ascii := ascii_of_N (code c + 32).

(** [c.upper()] for one character: a string, since the sharp s becomes two
    letters.  The two characters of the range whose upper case lies outside
    it (U+00B5 and U+00FF) are left as they are; like their upper cases,
    they are no key of the letter table. *)
Definition upper_char (c : ascii) : string :=
  if (code c =? 223)%N then "SS"
  else if is_ascii_lower c || between 224 246 c || between 248 254 c
  then String (shift_down c) EmptyString
  else String c EmptyString.

(** [c.lower()] for one character. *)
Definition lower_char (c : ascii) : ascii :=
  if is_ascii_upper c || between 192 214 c || between 216 222 c
  then shift_up c else c.

Fixpoint map_chars (f : ascii -> ascii) (s : string) : string :=
  match s with
  | EmptyString => EmptyString
  | String c t => String (f c) (map_chars f t)
  end.

(** [s.lower()] and [s.upper()] *)
Definition lower : string -> string := map_chars lower_char.

Fixpoint upper (s : string) : string :=
  match s with
  | EmptyString => EmptyString
  | String c t => upper_char c ++ upper t
  end.

Fixpoint all_chars (p : ascii -> bool) (s : string) : bool :=
  match s with
  | EmptyString => true
  | String c t => p c && all_chars p t
  end.

(** [s.isalpha()]: at least one character, and every character a letter. *)
Definition isalpha (s : string) : bool :=
  match s with
  | EmptyString => false
  | _ => all_chars isalpha_char s
  end.

(** [len(s)] *)
Definition len (s : string) : Z := Z.of_nat (String.length s).

(** [s.lstrip()], [s.rstrip()] and [s.strip()] without argument. *)
Fixpoint lstrip (s : string) : string :=
  match s with
  | EmptyString => EmptyString
  | String c t => if isspace_char c then lstrip t else s
  end.

Fixpoint rstrip (s : string) : string :=
  match s with
  | EmptyString => EmptyString
  | String c t =>
      match rstrip t with
      | EmptyString => if isspace_char c then EmptyString else String c EmptyString
      | t' => String c t'
      end
  end.

Definition strip (s : string) : string := rstrip (lstrip s).

(** [s.split()] without argument: the maximal runs of non-space characters.
    [split_from cur s] carries the run being read in [cur]. *)
Fixpoint split_from (cur : string) (s : string) : list string :=
  match s with
  | EmptyString =>
      match cur with EmptyString => [] | _ => [cur] end
  | String c t =>
      if isspace_char c
      then match cur with
           | EmptyString => split_from EmptyString t
           | _ => cur :: split_from EmptyString t
           end
      else split_from (cur ++ String c EmptyString) t
  end.

Definition split (s : string) : list string := split_from EmptyString s.

(** [str(n)], which is also how an f-string renders an [int]. *)
Definition str (n : Z) : string := NilZero.string_of_int (Z.to_int n).

(** [int(s)] on a token without spaces: an optional sign and one or more
    decimal digits; [None] stands for [ValueError].  (Underscores between
    digits, which Python also accepts, are not modelled.) *)
Definition int (s : string) : option Z :=
  match s with
  | String "-" t => option_map (fun d => - Z.of_uint d) (NilZero.uint_of_string t)
  | String "+" t => option_map Z.of_uint (NilZero.uint_of_string t)
  | _ => option_map Z.of_uint (NilZero.uint_of_string s)
  end.

(** [sum(xs)]: Python adds from the left, starting at 0. *)
Definition sum (xs : list Z) : Z := fold_left Z.add xs 0.

(** [d.get(k, default)] on a dict written as its list of items. *)
Fixpoint get (d : list (string * Z)) (k : string) (default : Z) : Z :=
  match d with
  | [] => default
  | (k', v) :: d' => if String.eqb k' k then v else get d' k default
  end.

End Py.

(** ** The module-level functions *)

Definition letter_values : list (string * Z) :=
  [ ("A", 1); ("E", 1); ("I", 1); ("O", 1); ("U", 1);
    ("L", 1); ("N", 1); ("R", 1); ("S", 1); ("T", 1);
    ("D", 2); ("G", 2);
    ("B", 3); ("C", 3); ("M", 3); ("P", 3);
    ("F", 4); ("H", 4); ("V", 4); ("W", 4); ("Y", 4);
    ("K", 5);
    ("J", 8); ("X", 8);
    ("Q", 10); ("Z", 10) ].

(** [sum(letter_values.get(letter.upper(), 0) for letter in word)] *)
Definition calculate_score (word : string) : Z :=
  Py.sum (map (fun letter => Py.get letter_values (Py.upper_char letter) 0)
              (list_ascii_of_string word)).

Definition calculate_time_bonus (elapsed_time : Z) : Z :=
  if elapsed_time <=? 5 then 20
  else if elapsed_time <=? 10 then 10
  else if elapsed_time <=? 15 then 5
  else 0.

(** [word.lower() in spell]; the dictionary of the [SpellChecker] is not part
    of the program and is a parameter of everything that consults it. *)
Definition is_valid_word (spell : string -> bool) (word : string) : bool :=
  spell (Py.lower word).

(** ** The state of a [ScrabbleGame] *)

(** Where the countdown thread stands in [countdown_timer]: at the head of
    the loop with the value [remaining] is about to take, at the [if] that
    follows the loop, or past the end of the function. *)
Inductive thread_pc : Type :=
| AtLoop (remaining : Z)
| AfterLoop
| Finished.

(** What [root.after] can be asked to call: [start_round], or the lambda of
    [update_timer_display] with the value it captured. *)
Inductive callback : Type :=
| CallStartRound
| CallTimerLabel (remaining : Z).

(** A label widget: its text and its foreground colour. *)
Record Label : Type := { text : string; fg : string }.

(** The attributes of the object and the texts of its widgets.  [packed]
    says whether the widgets of [setup_gui] are on screen,
    [final_score_labels] lists the final-score labels on screen, and
    [after_queue] holds the callbacks registered with [root.after] that have
    not run yet, each with its delay in milliseconds. *)
Record ScrabbleGame : Type := {
  required_length : option Z;
  total_score : Z;
  current_round : Z;
  max_rounds : Z;
  timer_running : bool;
  stop_event : bool;
  timer_thread : option thread_pc;
  round_label : string;
  score_label : string;
  timer_label : string;
  required_length_label : string;
  warning_label : Label;
  entry : string;
  packed : bool;
  final_score_labels : list string;
  after_queue : list (Z * callback)
}.

(** Assignment to one attribute; [max_rounds] is never assigned after
    [__init__]. *)
Definition set_required_length (v : option Z) (g : ScrabbleGame) : ScrabbleGame :=
  {| required_length := v; total_score := total_score g; current_round :=
     current_round g; max_rounds := max_rounds g; timer_running :=
     timer_running g; stop_event := stop_event g; timer_thread := timer_thread
     g; round_label := round_label g; score_label := score_label g; timer_label
     := timer_label g; required_length_label := required_length_label g;
     warning_label := warning_label g; entry := entry g; packed := packed g;
     final_score_labels := final_score_labels g; after_queue := after_queue g
     |}.

Definition set_total_score (v : Z) (g : ScrabbleGame) : ScrabbleGame :=
  {| required_length := required_length g; total_score := v; current_round
     := current_round g; max_rounds := max_rounds g; timer_running :=
     timer_running g; stop_event := stop_event g; timer_thread := timer_thread
     g; round_label := round_label g; score_label := score_label g; timer_label
     := timer_label g; required_length_label := required_length_label g;
     warning_label := warning_label g; entry := entry g; packed := packed g;
     final_score_labels := final_score_labels g; after_queue := after_queue g
     |}.

Definition set_current_round (v : Z) (g : ScrabbleGame) : ScrabbleGame :=
  {| required_length := required_length g; total_score := total_score g;
     current_round := v; max_rounds := max_rounds g; timer_running :=
     timer_running g; stop_event := stop_event g; timer_thread := timer_thread
     g; round_label := round_label g; score_label := score_label g; timer_label
     := timer_label g; required_length_label := required_length_label g;
     warning_label := warning_label g; entry := entry g; packed := packed g;
     final_score_labels := final_score_labels g; after_queue := after_queue g
     |}.

Definition set_timer_running (v : bool) (g : ScrabbleGame) : ScrabbleGame :=
  {| required_length := required_length g; total_score := total_score g;
     current_round := current_round g; max_rounds := max_rounds g;
     timer_running := v; stop_event := stop_event g; timer_thread :=
     timer_thread g; round_label := round_label g; score_label := score_label
     g; timer_label := timer_label g; required_length_label :=
     required_length_label g; warning_label := warning_label g; entry := entry
     g; packed := packed g; final_score_labels := final_score_labels g;
     after_queue := after_queue g |}.

Definition set_stop_event (v : bool) (g : ScrabbleGame) : ScrabbleGame :=
  {| required_length := required_length g; total_score := total_score g;
     current_round := current_round g; max_rounds := max_rounds g;
     timer_running := timer_running g; stop_event := v; timer_thread :=
     timer_thread g; round_label := round_label g; score_label := score_label
     g; timer_label := timer_label g; required_length_label :=
     required_length_label g; warning_label := warning_label g; entry := entry
     g; packed := packed g; final_score_labels := final_score_labels g;
     after_queue := after_queue g |}.

Definition set_timer_thread (v : option thread_pc) (g : ScrabbleGame) : ScrabbleGame :=
  {| required_length := required_length g; total_score := total_score g;
     current_round := current_round g; max_rounds := max_rounds g;
     timer_running := timer_running g; stop_event := stop_event g; timer_thread
     := v; round_label := round_label g; score_label := score_label g;
     timer_label := timer_label g; required_length_label :=
     required_length_label g; warning_label := warning_label g; entry := entry
     g; packed := packed g; final_score_labels := final_score_labels g;
     after_queue := after_queue g |}.

Definition set_round_label (v : string) (g : ScrabbleGame) : ScrabbleGame :=
  {| required_length := required_length g; total_score := total_score g;
     current_round := current_round g; max_rounds := max_rounds g;
     timer_running := timer_running g; stop_event := stop_event g; timer_thread
     := timer_thread g; round_label := v; score_label := score_label g;
     timer_label := timer_label g; required_length_label :=
     required_length_label g; warning_label := warning_label g; entry := entry
     g; packed := packed g; final_score_labels := final_score_labels g;
     after_queue := after_queue g |}.

Definition set_score_label (v : string) (g : ScrabbleGame) : ScrabbleGame :=
  {| required_length := required_length g; total_score := total_score g;
     current_round := current_round g; max_rounds := max_rounds g;
     timer_running := timer_running g; stop_event := stop_event g; timer_thread
     := timer_thread g; round_label := round_label g; score_label := v;
     timer_label := timer_label g; required_length_label :=
     required_length_label g; warning_label := warning_label g; entry := entry
     g; packed := packed g; final_score_labels := final_score_labels g;
     after_queue := after_queue g |}.

Definition set_timer_label (v : string) (g : ScrabbleGame) : ScrabbleGame :=
  {| required_length := required_length g; total_score := total_score g;
     current_round := current_round g; max_rounds := max_rounds g;
     timer_running := timer_running g; stop_event := stop_event g; timer_thread
     := timer_thread g; round_label := round_label g; score_label :=
     score_label g; timer_label := v; required_length_label :=
     required_length_label g; warning_label := warning_label g; entry := entry
     g; packed := packed g; final_score_labels := final_score_labels g;
     after_queue := after_queue g |}.

Definition set_required_length_label (v : string) (g : ScrabbleGame) : ScrabbleGame :=
  {| required_length := required_length g; total_score := total_score g;
     current_round := current_round g; max_rounds := max_rounds g;
     timer_running := timer_running g; stop_event := stop_event g; timer_thread
     := timer_thread g; round_label := round_label g; score_label :=
     score_label g; timer_label := timer_label g; required_length_label := v;
     warning_label := warning_label g; entry := entry g; packed := packed g;
     final_score_labels := final_score_labels g; after_queue := after_queue g
     |}.

Definition set_warning_label (v : Label) (g : ScrabbleGame) : ScrabbleGame :=
  {| required_length := required_length g; total_score := total_score g;
     current_round := current_round g; max_rounds := max_rounds g;
     timer_running := timer_running g; stop_event := stop_event g; timer_thread
     := timer_thread g; round_label := round_label g; score_label :=
     score_label g; timer_label := timer_label g; required_length_label :=
     required_length_label g; warning_label := v; entry := entry g; packed :=
     packed g; final_score_labels := final_score_labels g; after_queue :=
     after_queue g |}.

Definition set_entry (v : string) (g : ScrabbleGame) : ScrabbleGame :=
  {| required_length := required_length g; total_score := total_score g;
     current_round := current_round g; max_rounds := max_rounds g;
     timer_running := timer_running g; stop_event := stop_event g; timer_thread
     := timer_thread g; round_label := round_label g; score_label :=
     score_label g; timer_label := timer_label g; required_length_label :=
     required_length_label g; warning_label := warning_label g; entry := v;
     packed := packed g; final_score_labels := final_score_labels g;
     after_queue := after_queue g |}.

Definition set_packed (v : bool) (g : ScrabbleGame) : ScrabbleGame :=
  {| required_length := required_length g; total_score := total_score g;
     current_round := current_round g; max_rounds := max_rounds g;
     timer_running := timer_running g; stop_event := stop_event g; timer_thread
     := timer_thread g; round_label := round_label g; score_label :=
     score_label g; timer_label := timer_label g; required_length_label :=
     required_length_label g; warning_label := warning_label g; entry := entry
     g; packed := v; final_score_labels := final_score_labels g; after_queue :=
     after_queue g |}.

Definition set_final_score_labels (v : list string) (g : ScrabbleGame) : ScrabbleGame :=
  {| required_length := required_length g; total_score := total_score g;
     current_round := current_round g; max_rounds := max_rounds g;
     timer_running := timer_running g; stop_event := stop_event g; timer_thread
     := timer_thread g; round_label := round_label g; score_label :=
     score_label g; timer_label := timer_label g; required_length_label :=
     required_length_label g; warning_label := warning_label g; entry := entry
     g; packed := packed g; final_score_labels := v; after_queue := after_queue
     g |}.

Definition set_after_queue (v : list (Z * callback)) (g : ScrabbleGame) : ScrabbleGame :=
  {| required_length := required_length g; total_score := total_score g;
     current_round := current_round g; max_rounds := max_rounds g;
     timer_running := timer_running g; stop_event := stop_event g; timer_thread
     := timer_thread g; round_label := round_label g; score_label :=
     score_label g; timer_label := timer_label g; required_length_label :=
     required_length_label g; warning_label := warning_label g; entry := entry
     g; packed := packed g; final_score_labels := final_score_labels g;
     after_queue := v |}.

(** ** Texts shown by the widgets *)

Definition round_text (current_round max_rounds : Z) : string :=
  ("Round: " ++ Py.str current_round ++ "/" ++ Py.str max_rounds)%string.

Definition score_text (total_score : Z) : string :=
  ("Score: " ++ Py.str total_score)%string.

Definition timer_text (remaining : Z) : string :=
  ("Time remaining: " ++ Py.str remaining ++ " seconds")%string.

(** An f-string renders [None] as the word None. *)
Definition length_str (required_length : option Z) : string :=
  match required_length with
  | Some n => Py.str n
  | None => "None"
  end.

Definition required_length_text (required_length : option Z) : string :=
  ("Enter a word with exactly " ++ length_str required_length ++ " letters")%string.

Definition total_text (total_score : Z) : string :=
  ("Total Score: " ++ Py.str total_score)%string.

Definition not_alphabetic_text : string :=
  "Please enter only alphabetic characters.".

Definition wrong_length_text (required_length : option Z) : string :=
  ("Word must be exactly " ++ length_str required_length ++ " letters long.")%string.

Definition not_in_dictionary_text : string :=
  "The word is not in the dictionary.".

Definition round_score_text (base_score time_bonus : Z) : string :=
  ("Score: " ++ Py.str base_score ++ " (Bonus: " ++ Py.str time_bonus ++ ")")%string.

(** [label.config(text=...)], which leaves the colour as it is. *)
Definition config_text (t : string) (l : Label) : Label :=
  {| text := t; fg := fg l |}.

(** [n != required_length], where an [int] never equals [None]. *)
Definition length_differs (n : Z) (required_length : option Z) : bool :=
  match required_length with
  | Some k => negb (n =? k)
  | None => true
  end.

(** ** The methods that only touch widgets *)

(** [root.after(ms, f)] *)
Definition after (ms : Z) (f : callback) (g : ScrabbleGame) : ScrabbleGame :=
  set_after_queue (after_queue g ++ [(ms, f)]) g.

Definition update_timer_display (remaining : Z) (g : ScrabbleGame) : ScrabbleGame :=
  after 0 (CallTimerLabel remaining) g.

Definition show_warning (message : string) (g : ScrabbleGame) : ScrabbleGame :=
  set_warning_label {| text := message; fg := "red" |} g.

Definition show_score (base_score time_bonus : Z) (g : ScrabbleGame) : ScrabbleGame :=
  after 2000 CallStartRound
    (set_warning_label
       {| text := round_score_text base_score time_bonus; fg := "green" |} g).

(** [pack_forget] on every child of the root window. *)
Definition pack_forget_all (g : ScrabbleGame) : ScrabbleGame :=
  set_final_score_labels [] (set_packed false g).

Definition show_end_game_screen (g : ScrabbleGame) : ScrabbleGame :=
  set_final_score_labels [total_text (total_score g)] (pack_forget_all g).

(** ** The countdown thread *)

(** One step of [countdown_timer].  At the head of the loop the thread
    leaves the loop when the stop event is set; otherwise it asks for the
    display of [remaining], sleeps, and comes back to the head of the loop
    with the next value of [range(15, 0, -1)], if there is one.  After the
    loop, and unless the stop event is set, it asks for the display of 0,
    shows the time-out text and asks for [start_round] in a second.  The
    thread reads the stop event once, at the start of a step; what follows
    the reading belongs to the same step. *)
Definition countdown_step (g : ScrabbleGame) : ScrabbleGame :=
  match timer_thread g with
  | Some (AtLoop remaining) =>
      if stop_event g then set_timer_thread (Some AfterLoop) g
      else
        let g1 := update_timer_display remaining g in
        set_timer_thread
          (Some (if 0 <? remaining - 1 then AtLoop (remaining - 1) else AfterLoop)) g1
  | Some AfterLoop =>
      if negb (stop_event g) then
        let g1 := update_timer_display 0 g in
        let g2 := set_warning_label (config_text "Time's up!" (warning_label g1)) g1 in
        let g3 := after 1000 CallStartRound g2 in
        set_timer_thread (Some Finished) g3
      else set_timer_thread (Some Finished) g
  | Some Finished | None => g
  end.

(** The thread is still executing [countdown_timer]. *)
Definition alive (g : ScrabbleGame) : bool :=
  match timer_thread g with
  | Some (AtLoop _) | Some AfterLoop => true
  | Some Finished | None => false
  end.

(** The thread runs until it has left [countdown_timer], for at most [fuel]
    steps. *)
Fixpoint run_thread (fuel : nat) (g : ScrabbleGame) : ScrabbleGame :=
  match fuel with
  | O => g
  | S fuel' => if alive g then run_thread fuel' (countdown_step g) else g
  end.

(** [timer_thread.join()]: the caller waits until the thread has finished.
    From the head of the loop the thread finishes within sixteen steps
    (fifteen turns of the loop and the part after it). *)
Definition join (g : ScrabbleGame) : ScrabbleGame := run_thread 17 g.

Definition has_thread (g : ScrabbleGame) : bool :=
  match timer_thread g with Some _ => true | None => false end.

Definition start_timer (g : ScrabbleGame) : ScrabbleGame :=
  let g1 :=
    if timer_running g && has_thread g
    then join (set_stop_event true g)
    else g in
  let g2 := set_stop_event false g1 in
  let g3 := set_timer_running true g2 in
  set_timer_thread (Some (AtLoop 15)) g3.

(** ** Rounds *)

(** [start_round]; [drawn] is the value [random.randint(3, 7)] returns. *)
Definition start_round (drawn : Z) (g : ScrabbleGame) : ScrabbleGame :=
  if current_round g <? max_rounds g then
    let g1 := set_current_round (current_round g + 1) g in
    let g2 := set_round_label (round_text (current_round g1) (max_rounds g1)) g1 in
    let g3 := set_required_length (Some drawn) g2 in
    let g4 := set_entry "" g3 in
    let g5 := set_required_length_label (required_length_text (required_length g4)) g4 in
    let g6 := set_warning_label (config_text "" (warning_label g5)) g5 in
    start_timer g6
  else show_end_game_screen g.

(** [setup_gui]: fresh widgets, then the first round. *)
Definition setup_gui (drawn : Z) (g : ScrabbleGame) : ScrabbleGame :=
  let g1 := set_round_label (round_text (current_round g + 1) (max_rounds g)) g in
  let g2 := set_score_label (score_text (total_score g1)) g1 in
  let g3 := set_timer_label "Time remaining: 15 seconds" g2 in
  let g4 := set_required_length_label "Enter a word with exactly X letters" g3 in
  let g5 := set_warning_label {| text := ""; fg := "red" |} g4 in
  let g6 := set_entry "" g5 in
  let g7 := set_packed true g6 in
  start_round drawn g7.

(** [ScrabbleGame(root)] *)
Definition init (drawn : Z) : ScrabbleGame :=
  setup_gui drawn
    {| required_length := None; total_score := 0; current_round := 0;
       max_rounds := 10; timer_running := false; stop_event := false;
       timer_thread := None; round_label := ""; score_label := "";
       timer_label := ""; required_length_label := "";
       warning_label := {| text := ""; fg := "" |}; entry := "";
       packed := false; final_score_labels := []; after_queue := [] |}.

(** [reset_game]; it draws twice, once in [setup_gui] and once in the call
    of [start_round] that follows it. *)
Definition reset_game (drawn1 drawn2 : Z) (g : ScrabbleGame) : ScrabbleGame :=
  let g1 := set_total_score 0 g in
  let g2 := set_current_round 0 g1 in
  let g3 := pack_forget_all g2 in
  let g4 := setup_gui drawn1 g3 in
  start_round drawn2 g4.

(** ** Submissions and the event loop *)

(** Sequencing of steps that may raise: [None] is an uncaught exception. *)
Definition bind {A B : Type} (x : option A) (k : A -> option B) : option B :=
  match x with
  | Some a => k a
  | None => None
  end.

Notation "x <- e ;; k" := (bind e (fun x => k))
  (at level 61, e at next level, right associativity).

(** [int(label_text.split()[2])]: the third word of the timer label as a
    number; the index and the conversion may both raise. *)
Definition displayed_remaining (label_text : string) : option Z :=
  token <- nth_error (Py.split label_text) 2 ;;
  Py.int token.

(** What the player or the runtime can do next: the countdown thread takes
    its next step; the event loop calls the [i]-th pending callback ([drawn]
    is what [random.randint] returns if that starts a round); the player
    replaces the content of the entry; the player presses Submit. *)
Inductive event : Type :=
| ThreadStep
| Callback (i : nat) (drawn : Z)
| Typing (s : string)
| Submit.

(** A small dictionary for closed examples. *)
Definition word_list : list string :=
  ["apple"; "orange"; "cabbage"; "hello"].

Definition in_word_list (word : string) : bool :=
  existsb (String.eqb word) word_list.

Section Controller.

(** [key in spell]: the [SpellChecker]'s word list. *)
Variable spell : string -> bool.

Definition check_word (g : ScrabbleGame) : option ScrabbleGame :=
  if negb (timer_running g) then Some g
  else
    let user_input := Py.strip (entry g) in
    if negb (Py.isalpha user_input) then
      Some (show_warning not_alphabetic_text g)
    else if length_differs (Py.len user_input) (required_length g) then
      Some (show_warning (wrong_length_text (required_length g)) g)
    else if negb (is_valid_word spell user_input) then
      Some (show_warning not_in_dictionary_text g)
    else
      remaining <- displayed_remaining (timer_label g) ;;
      let elapsed_time := 15 - remaining in
      let base_score := calculate_score user_input in
      let time_bonus := calculate_time_bonus elapsed_time in
      let round_score := base_score + time_bonus in
      let g1 := set_total_score (total_score g + round_score) g in
      let g2 := set_score_label (score_text (total_score g1)) g1 in
      let g3 := set_warning_label (config_text "" (warning_label g2)) g2 in
      Some (show_score base_score time_bonus g3).

(** The event loop calls one callback. *)
Definition run_callback (f : callback) (drawn : Z) (g : ScrabbleGame) : ScrabbleGame :=
  match f with
  | CallStartRound => start_round drawn g
  | CallTimerLabel remaining => set_timer_label (timer_text remaining) g
  end.

Definition remove_nth {A : Type} (i : nat) (l : list A) : list A :=
  firstn i l ++ skipn (S i) l.

(** One event; [None] when the event cannot happen in [g] (no such thread
    step or callback, widgets not on screen) or when the callback raises. *)
Definition step (e : event) (g : ScrabbleGame) : option ScrabbleGame :=
  match e with
  | ThreadStep => if alive g then Some (countdown_step g) else None
  | Callback i drawn =>
      item <- nth_error (after_queue g) i ;;
      Some (run_callback (snd item) drawn
              (set_after_queue (remove_nth i (after_queue g)) g))
  | Typing s => if packed g then Some (set_entry s g) else None
  | Submit => if packed g then check_word g else None
  end.

Fixpoint run (events : list event) (g : ScrabbleGame) : option ScrabbleGame :=
  match events with
  | [] => Some g
  | e :: rest => g' <- step e g ;; run rest g'
  end.

(** ** The validator as the specification words it *)

Inductive ValidationOutcome : Type :=
| Valid
| NotAlphabetic
| WrongLength (expected : option Z)
| NotInDictionary.

(** The three checks in the specification's order. *)
Definition validate (word : string) (required_length : option Z) : ValidationOutcome :=
  if negb (Py.isalpha word) then NotAlphabetic
  else if length_differs (Py.len word) required_length then WrongLength required_length
  else if negb (spell (Py.lower word)) then NotInDictionary
  else Valid.

(** The text that reports an outcome. *)
Definition rejection_text (o : ValidationOutcome) : string :=
  match o with
  | Valid => ""
  | NotAlphabetic => not_alphabetic_text
  | WrongLength expected => wrong_length_text expected
  | NotInDictionary => not_in_dictionary_text
  end.

End Controller.

(** ** Executions used in the examples *)

(** [n] turns of the countdown loop, each followed by the display it asked
    for. *)
Definition ticks (n : nat) : list event :=
  List.concat (repeat [ThreadStep; Callback 0 0] n).

(** A whole round without a submission: the fifteen ticks, then the thread
    leaves the loop, times out and has 0 displayed. *)
Definition until_expiry : list event :=
  (ticks 15 ++ [ThreadStep; Callback 0 0])%list.

(** A round that times out, followed by the [start_round] the time-out
    asked for. *)
Definition timed_out_round (drawn : Z) : list event :=
  (until_expiry ++ [Callback 0 drawn])%list.

(** Nine rounds time out; in the tenth the player types a word, does not
    submit it, and the round times out as well, which ends the game. *)
Definition until_game_over : list event :=
  (List.concat (repeat (timed_out_round 7) 9)
     ++ [Typing "cabbage"] ++ timed_out_round 7)%list.

(** The fields of the state that neither the countdown thread nor
    [start_timer] writes are the same in [g] and [g']. *)
Definition same_session (g g' : ScrabbleGame) : Prop :=
  total_score g' = total_score g
  /\ current_round g' = current_round g
  /\ max_rounds g' = max_rounds g
  /\ required_length g' = required_length g
  /\ entry g' = entry g
  /\ timer_label g' = timer_label g.

(** ** What every state of a game satisfies *)

(** A display request in the queue carries a value of the countdown. *)
Definition label_in_range (item : Z * callback) : Prop :=
  match snd item with
  | CallTimerLabel remaining => 0 <= remaining <= 15
  | CallStartRound => True
  end.

(** There is a thread, and in its loop it is at a value of
    [range(15, 0, -1)]. *)
Definition thread_in_range (t : option thread_pc) : Prop :=
  match t with
  | Some (AtLoop remaining) => 1 <= remaining <= 15
  | Some AfterLoop | Some Finished => True
  | None => False
  end.

(** The state between two events of a game: the round is one of the ten,
    the flags are as [start_timer] left them, the timer label shows a value
    of the countdown, and the score, round and length labels show the
    attributes they were made from. *)
Record consistent (g : ScrabbleGame) : Prop := {
  inv_max : max_rounds g = 10;
  inv_round : 1 <= current_round g <= 10;
  inv_flag : timer_running g = true;
  inv_stop : stop_event g = false;
  inv_total : 0 <= total_score g;
  inv_timer_label : exists remaining,
      0 <= remaining <= 15 /\ timer_label g = timer_text remaining;
  inv_queue : Forall label_in_range (after_queue g);
  inv_thread : thread_in_range (timer_thread g);
  inv_score_label : score_label g = score_text (total_score g);
  inv_round_label : round_label g = round_text (current_round g) (max_rounds g);
  inv_length : exists n, required_length g = Some n;
  inv_length_label :
    required_length_label g = required_length_text (required_length g)
}.

(** Every length drawn during [events] is one [random.randint(3, 7)] can
    return. *)
Definition draws_in_range (events : list event) : Prop :=
  Forall (fun e => match e with
                   | Callback _ drawn => 3 <= drawn <= 7
                   | _ => True
                   end) events.

(** The display requests of a countdown that starts at [n]: [n], ..., 1. *)
Fixpoint countdown_requests (n : nat) : list (Z * callback) :=
  match n with
  | O => []
  | S m => (0, CallTimerLabel (Z.of_nat n)) :: countdown_requests m
  end.

(** Two ticks, then the player types cabbage and submits it. *)
Definition one_scored_round : list event :=
  (ticks 2 ++ [Typing "cabbage"; Submit])%list.

(** Nine rounds time out; in the tenth the player submits cabbage at once
    and the [start_round] that follows ends the game, the thread of the
    tenth round still counting. *)
Definition until_game_won : list event :=
  (List.concat (repeat (timed_out_round 7) 9)
     ++ [Typing "cabbage"; Submit; Callback 0 7])%list.

(** Fourteen ticks, which leave 2 seconds on display, then the player types
    cabbage. *)
Definition two_seconds_left : list event :=
  (ticks 14 ++ [Typing "cabbage"])%list.

(** The thread ticks once more and has 1 displayed, then leaves the loop,
    times out and has 0 displayed; the callback asked for before these
    stays first in the queue. *)
Definition timer_runs_out : list event :=
  [ThreadStep; Callback 1 0; ThreadStep; Callback 1 0].



(** * Properties *)

(** ** Strings and numbers *)

Module PyFacts.

Lemma append_assoc (a b c : string) : ((a ++ b) ++ c = a ++ (b ++ c))%string.
Proof. induction a as [|x a IH]; simpl; [reflexivity | now rewrite IH]. Qed.

Lemma append_nil_r (a : string) : (a ++ "" = a)%string.
Proof. induction a as [|x a IH]; simpl; [reflexivity | now rewrite IH]. Qed.

(** The digits that [str] writes are no spaces. *)
Lemma digits_no_space (d : uint) :
  Py.all_chars (fun c => negb (Py.isspace_char c)) (NilEmpty.string_of_uint d) = true.
Proof. induction d; simpl; auto. Qed.

Lemma digits_nonempty (d : uint) :
  d <> Nil -> NilEmpty.string_of_uint d <> EmptyString.
Proof. destruct d; simpl; congruence. Qed.

Lemma uint_string_nonnil (d : uint) :
  d <> Nil -> NilZero.string_of_uint d = NilEmpty.string_of_uint d.
Proof. destruct d; simpl; congruence. Qed.

Lemma str_no_space (n : Z) :
  Py.all_chars (fun c => negb (Py.isspace_char c)) (Py.str n) = true.
Proof.
  destruct n as [|p|p]; [reflexivity | |]; unfold Py.str; simpl;
    rewrite (uint_string_nonnil _ (Unsigned.to_uint_nonnil p));
    apply digits_no_space.
Qed.

Lemma str_nonempty (n : Z) : Py.str n <> EmptyString.
Proof.
  destruct n as [|p|p]; unfold Py.str; simpl; try discriminate.
  rewrite (uint_string_nonnil _ (Unsigned.to_uint_nonnil p)).
  apply digits_nonempty, Unsigned.to_uint_nonnil.
Qed.

(** A number without sign is read back digit by digit. *)
Lemma int_digits (d : uint) :
  d <> Nil -> Py.int (NilEmpty.string_of_uint d) = Some (Z.of_uint d).
Proof.
  intros Hd.
  assert (H : option_map Z.of_uint (NilZero.uint_of_string (NilEmpty.string_of_uint d))
              = Some (Z.of_uint d)).
  { rewrite <- (uint_string_nonnil d Hd), (NilZero.usu d Hd). reflexivity. }
  destruct d; try congruence; exact H.
Qed.

(** [int(str(n)) == n] *)
Lemma int_str (n : Z) : Py.int (Py.str n) = Some n.
Proof.
  destruct n as [|p|p]; [reflexivity | |]; unfold Py.str; simpl.
  - rewrite (uint_string_nonnil _ (Unsigned.to_uint_nonnil p)).
    rewrite (int_digits _ (Unsigned.to_uint_nonnil p)).
    unfold Z.of_uint. now rewrite Unsigned.of_to.
  - rewrite (NilZero.usu _ (Unsigned.to_uint_nonnil p)). simpl.
    unfold Z.of_uint. now rewrite Unsigned.of_to.
Qed.

(** A run of characters that are no spaces is read into the current word. *)
Lemma split_from_word (w cur rest : string) :
  Py.all_chars (fun c => negb (Py.isspace_char c)) w = true ->
  Py.split_from cur (w ++ rest) = Py.split_from (cur ++ w) rest.
Proof.
  revert cur. induction w as [|c w IH]; intros cur Hw; simpl.
  - now rewrite append_nil_r.
  - simpl in Hw. apply andb_prop in Hw as [Hc Hw].
    apply negb_true_iff in Hc. rewrite Hc, (IH _ Hw), append_assoc. reflexivity.
Qed.

End PyFacts.

(** The timer label made of [remaining] is read back as [remaining]. *)
Lemma displayed_remaining_timer_text (remaining : Z) :
  displayed_remaining (timer_text remaining) = Some remaining.
Proof.
  unfold displayed_remaining, timer_text, Py.split.
  change (Py.split_from "" ("Time remaining: " ++ Py.str remaining ++ " seconds"))
    with ("Time" :: "remaining:"
            :: Py.split_from "" (Py.str remaining ++ " seconds")).
  rewrite (PyFacts.split_from_word _ _ _ (PyFacts.str_no_space remaining)).
  simpl ("" ++ _)%string.
  assert (Hlast : forall s, s <> EmptyString ->
             Py.split_from s " seconds" = [s; "seconds"]).
  { intros [|c s] Hs; [congruence | reflexivity]. }
  rewrite (Hlast _ (PyFacts.str_nonempty remaining)).
  apply PyFacts.int_str.
Qed.

(** ** Scoring *)

Ltac each_char c := destruct c as [[] [] [] [] [] [] [] []].

Lemma fold_add_shift (xs : list Z) (a : Z) :
  fold_left Z.add xs a = a + fold_left Z.add xs 0.
Proof.
  revert a. induction xs as [|x xs IH]; intros a; simpl; [lia|].
  rewrite (IH (a + x)), (IH x). lia.
Qed.

Lemma calculate_score_cons (c : ascii) (word : string) :
  calculate_score (String c word)
  = Py.get letter_values (Py.upper_char c) 0 + calculate_score word.
Proof.
  unfold calculate_score, Py.sum. simpl map. simpl fold_left.
  apply fold_add_shift.
Qed.

Lemma calculate_score_app (a b : string) :
  calculate_score (a ++ b) = calculate_score a + calculate_score b.
Proof.
  induction a as [|c a IH]; [reflexivity|].
  simpl append. rewrite !calculate_score_cons, IH. lia.
Qed.

Lemma non_letter_scores_nothing (c : ascii) :
  Py.isalpha_char c = false -> Py.get letter_values (Py.upper_char c) 0 = 0.
Proof. each_char c; vm_compute; congruence. Qed.

Lemma letter_scores_in_range (c : ascii) :
  Py.is_ascii_letter c = true ->
  1 <= Py.get letter_values (Py.upper_char c) 0 <= 10.
Proof. each_char c; vm_compute; intuition congruence. Qed.

Lemma upper_char_score (c : ascii) :
  Py.is_ascii_letter c = true ->
  calculate_score (Py.upper_char c) = calculate_score (String c "").
Proof. each_char c; vm_compute; congruence. Qed.

Lemma lower_char_score (c : ascii) :
  calculate_score (String (Py.lower_char c) "") = calculate_score (String c "").
Proof. each_char c; reflexivity. Qed.

(** C4: the score of a word is the sum, character by character, of the
    table value of the upper-cased character, 0 where the table has none;
    characters that are not letters add 0, the letters A-Z add between 1
    and 10 in either case, the empty word scores 0, and the two words of
    the test suite score 9 and 7. *)
Theorem calculate_score_is_letter_sum :
  calculate_score "" = 0
  /\ (forall c word,
        calculate_score (String c word)
        = Py.get letter_values (Py.upper_char c) 0 + calculate_score word)
  /\ (forall c, Py.isalpha_char c = false ->
        Py.get letter_values (Py.upper_char c) 0 = 0)
  /\ (forall c, Py.is_ascii_letter c = true ->
        1 <= Py.get letter_values (Py.upper_char c) 0 <= 10)
  /\ calculate_score "apple" = 9
  /\ calculate_score "orange" = 7.
Proof.
  repeat split; try reflexivity.
  - apply calculate_score_cons.
  - apply non_letter_scores_nothing.
  - now apply letter_scores_in_range.
  - now apply letter_scores_in_range.
Qed.

(** C9: on words made of the letters A-Z in either case, the score of a
    word, of its upper case and of its lower case are the same. *)
Theorem calculate_score_case_insensitive (w : string) :
  Py.all_chars Py.is_ascii_letter w = true ->
  calculate_score w = calculate_score (Py.upper w)
  /\ calculate_score (Py.upper w) = calculate_score (Py.lower w).
Proof.
  induction w as [|c w IH]; intros Hw; [split; reflexivity|].
  simpl in Hw. apply andb_prop in Hw as [Hc Hw].
  destruct (IH Hw) as [IHu IHl].
  assert (Hup : calculate_score (Py.upper (String c w)) = calculate_score (String c w)).
  { simpl Py.upper.
    rewrite calculate_score_app, (upper_char_score c Hc), <- IHu.
    symmetry. apply (calculate_score_app (String c "") w). }
  split; [now rewrite Hup|].
  rewrite Hup.
  change (calculate_score (String c "" ++ w)
          = calculate_score (String (Py.lower_char c) "" ++ Py.lower w)).
  rewrite !calculate_score_app, lower_char_score, <- IHl, <- IHu. reflexivity.
Qed.

Lemma calculate_score_case_insensitive_witness :
  calculate_score "oRANGe" = calculate_score (Py.upper "oRANGe")
  /\ calculate_score (Py.upper "oRANGe") = calculate_score (Py.lower "oRANGe").
Proof. apply (calculate_score_case_insensitive "oRANGe"). reflexivity. Defined.

(** Outside A-Z the upper case can change the score: the sharp s scores
    nothing, its upper case SS scores 2. *)
Remark sharp_s_changes_score :
  let sharp_s := String (ascii_of_N 223) "" in
  calculate_score sharp_s = 0 /\ calculate_score (Py.upper sharp_s) = 2.
Proof. split; reflexivity. Qed.

(** C3: for elapsed times from 0 on, the bonus is 20 up to 5 seconds, 10
    from 6 to 10, 5 from 11 to 15 and 0 above; the upper edge of each tier
    belongs to it. *)
Theorem calculate_time_bonus_tiers (elapsed_time : Z) :
  0 <= elapsed_time ->
  (elapsed_time <= 5 -> calculate_time_bonus elapsed_time = 20)
  /\ (6 <= elapsed_time <= 10 -> calculate_time_bonus elapsed_time = 10)
  /\ (11 <= elapsed_time <= 15 -> calculate_time_bonus elapsed_time = 5)
  /\ (15 < elapsed_time -> calculate_time_bonus elapsed_time = 0)
  /\ calculate_time_bonus 0 = 20 /\ calculate_time_bonus 5 = 20
  /\ calculate_time_bonus 6 = 10 /\ calculate_time_bonus 10 = 10
  /\ calculate_time_bonus 11 = 5 /\ calculate_time_bonus 15 = 5
  /\ calculate_time_bonus 16 = 0.
Proof.
  intros _. unfold calculate_time_bonus.
  repeat split; intros;
    repeat match goal with
           | |- context [?a <=? ?b] => destruct (Z.leb_spec a b)
           end; lia.
Qed.

Lemma calculate_time_bonus_tiers_witness :
  0 <= 10 /\ calculate_time_bonus 10 = 10.
Proof.
  split; [lia|].
  destruct (calculate_time_bonus_tiers 10 ltac:(lia)) as (_ & H & _).
  apply H. lia.
Defined.

(** ** Submissions *)

Section Submissions.

Variable spell : string -> bool.

(** [show_warning] writes the warning label and nothing else. *)
Lemma show_warning_frame (message : string) (g : ScrabbleGame) :
  let g' := show_warning message g in
  warning_label g' = {| text := message; fg := "red" |}
  /\ total_score g' = total_score g
  /\ current_round g' = current_round g
  /\ required_length g' = required_length g
  /\ max_rounds g' = max_rounds g
  /\ timer_running g' = timer_running g
  /\ stop_event g' = stop_event g
  /\ timer_thread g' = timer_thread g
  /\ timer_label g' = timer_label g
  /\ score_label g' = score_label g
  /\ round_label g' = round_label g
  /\ entry g' = entry g
  /\ after_queue g' = after_queue g.
Proof. repeat split. Qed.

(** [check_word] follows the validator of the specification: a rejected
    word is reported with the text of its outcome. *)
Lemma check_word_rejected (g : ScrabbleGame) :
  timer_running g = true ->
  validate spell (Py.strip (entry g)) (required_length g) <> Valid ->
  check_word spell g
  = Some (show_warning
            (rejection_text
               (validate spell (Py.strip (entry g)) (required_length g))) g).
Proof.
  intros Hrun. unfold check_word, validate, is_valid_word. rewrite Hrun. simpl.
  destruct (Py.isalpha _); simpl; [|reflexivity].
  destruct (length_differs _ _); simpl; [reflexivity|].
  destruct (spell _); simpl; [congruence | reflexivity].
Qed.

Lemma check_word_accepted (g : ScrabbleGame) (remaining : Z) :
  timer_running g = true ->
  validate spell (Py.strip (entry g)) (required_length g) = Valid ->
  timer_label g = timer_text remaining ->
  let base_score := calculate_score (Py.strip (entry g)) in
  let time_bonus := calculate_time_bonus (15 - remaining) in
  check_word spell g
  = Some (show_score base_score time_bonus
            (set_warning_label (config_text "" (warning_label g))
               (set_score_label
                  (score_text (total_score g + (base_score + time_bonus)))
                  (set_total_score (total_score g + (base_score + time_bonus)) g)))).
Proof.
  intros Hrun Hvalid Hlabel. unfold check_word, validate, is_valid_word in *.
  rewrite Hrun. simpl.
  destruct (Py.isalpha _); simpl in *; [|discriminate].
  destruct (length_differs _ _); simpl in *; [discriminate|].
  destruct (spell _); simpl in *; [|discriminate].
  rewrite Hlabel, displayed_remaining_timer_text. reflexivity.
Qed.

Lemma validate_valid (word : string) (required_length : option Z) :
  validate spell word required_length = Valid
  <-> Py.isalpha word = true
      /\ required_length = Some (Py.len word)
      /\ is_valid_word spell word = true.
Proof.
  unfold validate, is_valid_word, length_differs.
  destruct (Py.isalpha word); simpl; [|intuition discriminate].
  destruct required_length as [k|]; simpl; [|intuition discriminate].
  destruct (Z.eqb_spec (Py.len word) k) as [->|Hne]; simpl.
  - destruct (spell _); simpl; intuition discriminate.
  - split; [discriminate|]. intros (_ & [= E] & _). congruence.
Qed.

(** C1: a valid submission while the timer flag is set takes the remaining
    seconds from the timer label, adds the letter score of the word and the
    bonus for 15 minus the remaining seconds to the total, and reports both;
    cabbage with 4 seconds left adds 19, reported as 14 and 5. *)
Theorem valid_submission_adds_score_and_bonus :
  (forall (g : ScrabbleGame) (remaining : Z),
      timer_running g = true ->
      Py.isalpha (Py.strip (entry g)) = true ->
      required_length g = Some (Py.len (Py.strip (entry g))) ->
      is_valid_word spell (Py.strip (entry g)) = true ->
      timer_label g = timer_text remaining ->
      let elapsed_time := 15 - remaining in
      let base_score := calculate_score (Py.strip (entry g)) in
      let time_bonus := calculate_time_bonus elapsed_time in
      exists g',
        check_word spell g = Some g'
        /\ total_score g' = total_score g + (base_score + time_bonus)
        /\ score_label g' = score_text (total_score g')
        /\ warning_label g'
           = {| text := round_score_text base_score time_bonus; fg := "green" |}
        /\ after_queue g' = (after_queue g ++ [(2000, CallStartRound)])%list)
  /\ (forall g : ScrabbleGame,
        spell "cabbage" = true ->
        timer_running g = true ->
        entry g = "cabbage" ->
        required_length g = Some 7 ->
        timer_label g = "Time remaining: 4 seconds" ->
        15 - 4 = 11
        /\ calculate_time_bonus 11 = 5
        /\ exists g',
             check_word spell g = Some g'
             /\ total_score g' = total_score g + 19
             /\ text (warning_label g') = "Score: 14 (Bonus: 5)").
Proof.
  assert (General : forall g remaining,
             timer_running g = true ->
             Py.isalpha (Py.strip (entry g)) = true ->
             required_length g = Some (Py.len (Py.strip (entry g))) ->
             is_valid_word spell (Py.strip (entry g)) = true ->
             timer_label g = timer_text remaining ->
             exists g',
               check_word spell g = Some g'
               /\ total_score g'
                  = total_score g
                    + (calculate_score (Py.strip (entry g))
                       + calculate_time_bonus (15 - remaining))
               /\ score_label g' = score_text (total_score g')
               /\ warning_label g'
                  = {| text := round_score_text
                                 (calculate_score (Py.strip (entry g)))
                                 (calculate_time_bonus (15 - remaining));
                       fg := "green" |}
               /\ after_queue g' = (after_queue g ++ [(2000, CallStartRound)])%list).
  { intros g remaining Hrun Halpha Hlen Hdict Hlabel.
    assert (Hvalid : validate spell (Py.strip (entry g)) (required_length g) = Valid)
      by (apply validate_valid; auto).
    eexists. split; [apply (check_word_accepted g remaining Hrun Hvalid Hlabel)|].
    repeat split. }
  split; [exact General|].
  intros g Hdict Hrun Hentry Hlen Hlabel.
  split; [reflexivity|]. split; [reflexivity|].
  destruct (General g 4) as (g' & Hcheck & Htotal & _ & Hwarn & _);
    rewrite ?Hentry; auto.
  exists g'. rewrite Hentry in Htotal, Hwarn.
  split; [exact Hcheck|]. split; [exact Htotal|]. now rewrite Hwarn.
Qed.

(** C2: the three checks run in the order alphabetic, length, dictionary,
    and the first that fails decides what the warning label shows: a word
    that is not alphabetic gets the alphabetic warning whatever its length,
    never the length warning; a word of letters of the wrong length gets
    the length warning whatever the dictionary says; 1a with required
    length 5, which fails both of the first two checks, is shown the
    alphabetic warning. *)
Theorem validation_fails_fast_in_order (g : ScrabbleGame) :
  timer_running g = true ->
  (Py.isalpha (Py.strip (entry g)) = false ->
   exists g',
     check_word spell g = Some g'
     /\ warning_label g'
        = {| text := "Please enter only alphabetic characters."; fg := "red" |}
     /\ (forall n, text (warning_label g')
                   <> ("Word must be exactly " ++ Py.str n ++ " letters long.")%string)
     /\ text (warning_label g') <> "The word is not in the dictionary.")
  /\ (forall n,
        Py.isalpha (Py.strip (entry g)) = true ->
        required_length g = Some n ->
        Py.len (Py.strip (entry g)) <> n ->
        exists g',
          check_word spell g = Some g'
          /\ warning_label g'
             = {| text := ("Word must be exactly " ++ Py.str n ++ " letters long.")%string;
                  fg := "red" |}
          /\ text (warning_label g') <> "Please enter only alphabetic characters."
          /\ text (warning_label g') <> "The word is not in the dictionary.")
  /\ (Py.isalpha (Py.strip (entry g)) = true ->
      required_length g = Some (Py.len (Py.strip (entry g))) ->
      spell (Py.lower (Py.strip (entry g))) = false ->
      exists g',
        check_word spell g = Some g'
        /\ warning_label g'
           = {| text := "The word is not in the dictionary."; fg := "red" |})
  /\ (entry g = "1a" -> required_length g = Some 5 ->
      Py.isalpha (Py.strip "1a") = false
      /\ Py.len (Py.strip "1a") <> 5
      /\ exists g',
           check_word spell g = Some g'
           /\ text (warning_label g') = "Please enter only alphabetic characters."
           /\ text (warning_label g') <> "Word must be exactly 5 letters long.").
Proof.
  intros Hrun. unfold check_word, is_valid_word. rewrite Hrun. cbn [negb].
  split; [|split; [|split]].
  - intros Halpha. rewrite Halpha. cbn [negb].
    eexists. split; [reflexivity|]. split; [reflexivity|].
    split; [intros n|]; discriminate.
  - intros n Halpha Hlen Hne. rewrite Halpha, Hlen. cbn [negb length_differs].
    destruct (Z.eqb_spec (Py.len (Py.strip (entry g))) n) as [E|_]; [congruence|].
    cbn [negb]. eexists. split; [reflexivity|]. split; [reflexivity|].
    split; discriminate.
  - intros Halpha Hlen Hdict. rewrite Halpha, Hlen, Hdict.
    cbn [negb length_differs]. rewrite Z.eqb_refl. cbn [negb].
    eexists. split; reflexivity.
  - intros Hentry Hlen. rewrite Hentry, Hlen.
    split; [reflexivity|]. split; [discriminate|].
    eexists. split; [reflexivity|]. split; [reflexivity | discriminate].
Qed.

(** C5: a submission that fails a check, made while the timer flag is set,
    shows in red the warning of the first check that fails (alphabetic,
    then length, then dictionary) and changes nothing else: the total, the
    round, the required length, the timer flag, the stop event, the thread,
    the pending callbacks, the entry and every other label are as before,
    so the same round goes on and the word adds nothing. *)
Theorem rejected_submission_only_warns (g : ScrabbleGame) :
  timer_running g = true ->
  Py.isalpha (Py.strip (entry g)) = false
  \/ required_length g <> Some (Py.len (Py.strip (entry g)))
  \/ spell (Py.lower (Py.strip (entry g))) = false ->
  exists g',
    check_word spell g = Some g'
    /\ warning_label g'
       = {| text :=
              if negb (Py.isalpha (Py.strip (entry g)))
              then "Please enter only alphabetic characters."
              else match required_length g with
                   | Some n =>
                       if Py.len (Py.strip (entry g)) =? n
                       then "The word is not in the dictionary."
                       else ("Word must be exactly " ++ Py.str n
                               ++ " letters long.")%string
                   | None => "Word must be exactly None letters long."
                   end;
            fg := "red" |}
    /\ total_score g' = total_score g
    /\ current_round g' = current_round g
    /\ max_rounds g' = max_rounds g
    /\ required_length g' = required_length g
    /\ timer_running g' = true
    /\ stop_event g' = stop_event g
    /\ timer_thread g' = timer_thread g
    /\ after_queue g' = after_queue g
    /\ entry g' = entry g
    /\ round_label g' = round_label g
    /\ score_label g' = score_label g
    /\ timer_label g' = timer_label g
    /\ required_length_label g' = required_length_label g
    /\ packed g' = packed g
    /\ final_score_labels g' = final_score_labels g.
Proof.
  intros Hrun Hfail. unfold check_word, is_valid_word. rewrite Hrun. cbn [negb].
  destruct (Py.isalpha (Py.strip (entry g))) eqn:Halpha; cbn [negb].
  - unfold length_differs.
    destruct (required_length g) as [n|] eqn:Hlen.
    + destruct (Z.eqb_spec (Py.len (Py.strip (entry g))) n) as [E|E]; cbn [negb].
      * destruct (spell _) eqn:Hdict; cbn [negb].
        -- destruct Hfail as [Hf | [Hf | Hf]];
             [discriminate Hf | congruence | discriminate Hf].
        -- eexists. split; [reflexivity|]. repeat split; auto.
      * eexists. split; [reflexivity|]. repeat split; auto.
    + eexists. split; [reflexivity|]. repeat split; auto.
  - eexists. split; [reflexivity|]. repeat split; auto.
Qed.

Lemma alpha_is_no_space (c : ascii) :
  Py.isalpha_char c = true -> Py.isspace_char c = false.
Proof. each_char c; vm_compute; congruence. Qed.

Lemma lstrip_spaces (pre s : string) :
  Py.all_chars Py.isspace_char pre = true -> Py.lstrip (pre ++ s) = Py.lstrip s.
Proof.
  induction pre as [|c pre IH]; simpl; [reflexivity|].
  intros H. apply andb_prop in H as [Hc Hpre]. rewrite Hc. auto.
Qed.

Lemma rstrip_all_spaces (post : string) :
  Py.all_chars Py.isspace_char post = true -> Py.rstrip post = "".
Proof.
  induction post as [|c post IH]; simpl; [reflexivity|].
  intros H. apply andb_prop in H as [Hc Hpost]. now rewrite (IH Hpost), Hc.
Qed.

Lemma rstrip_spaces (s post : string) :
  Py.all_chars Py.isspace_char post = true -> Py.rstrip (s ++ post) = Py.rstrip s.
Proof.
  intros Hpost. induction s as [|c s IH]; simpl.
  - now apply rstrip_all_spaces.
  - now rewrite IH.
Qed.

Lemma rstrip_letters (w : string) :
  Py.all_chars Py.isalpha_char w = true -> Py.rstrip w = w.
Proof.
  induction w as [|c w IH]; simpl; [reflexivity|].
  intros H. apply andb_prop in H as [Hc Hw]. rewrite (IH Hw).
  destruct w; [now rewrite (alpha_is_no_space c Hc) | reflexivity].
Qed.

Lemma isalpha_all (w : string) :
  Py.isalpha w = true -> w <> "" /\ Py.all_chars Py.isalpha_char w = true.
Proof. destruct w; simpl; [discriminate|]. intros H. split; [discriminate|exact H]. Qed.

(** [strip] returns a word of letters from the spaces around it. *)
Lemma strip_padded_word (pre w post : string) :
  Py.all_chars Py.isspace_char pre = true ->
  Py.all_chars Py.isspace_char post = true ->
  Py.isalpha w = true ->
  Py.strip (pre ++ w ++ post) = w.
Proof.
  intros Hpre Hpost Hw. apply isalpha_all in Hw as [Hne Hall].
  unfold Py.strip. rewrite (lstrip_spaces _ _ Hpre).
  destruct w as [|c w]; [congruence|].
  simpl in Hall. apply andb_prop in Hall as [Hc Hall].
  simpl append. simpl Py.lstrip. rewrite (alpha_is_no_space c Hc).
  change (String c (w ++ post)) with (String c w ++ post)%string.
  rewrite (rstrip_spaces _ _ Hpost). apply rstrip_letters.
  simpl. now rewrite Hc, Hall.
Qed.

Lemma padded_word_is_not_alpha (pre w post : string) :
  Py.all_chars Py.isspace_char pre = true ->
  Py.all_chars Py.isspace_char post = true ->
  pre <> "" \/ post <> "" ->
  Py.isalpha (pre ++ w ++ post) = false.
Proof.
  intros Hpre Hpost Hpad.
  assert (Hspace : forall c, Py.isspace_char c = true -> Py.isalpha_char c = false).
  { intros c Hc. destruct (Py.isalpha_char c) eqn:E; [|reflexivity].
    apply alpha_is_no_space in E. congruence. }
  assert (Hcat : forall a b, Py.all_chars Py.isalpha_char b = false ->
                             Py.all_chars Py.isalpha_char (a ++ b) = false).
  { intros a b Hb. induction a as [|c a IH]; simpl; [exact Hb|].
    rewrite IH. apply andb_false_r. }
  assert (Hall : Py.all_chars Py.isalpha_char (pre ++ w ++ post) = false).
  { destruct pre as [|c pre].
    - destruct Hpad as [Hp | Hp]; [congruence|].
      simpl append. apply Hcat.
      destruct post as [|c post]; [congruence|].
      simpl in Hpost. apply andb_prop in Hpost as [Hc _].
      simpl. now rewrite (Hspace c Hc).
    - simpl in Hpre. apply andb_prop in Hpre as [Hc _].
      simpl. now rewrite (Hspace c Hc). }
  destruct (pre ++ w ++ post)%string; [reflexivity | exact Hall].
Qed.

(** [check_word] reads the entry through [strip] only and does not write it. *)
Lemma check_word_reads_stripped_entry (s t : string) (g : ScrabbleGame) :
  Py.strip s = Py.strip t ->
  check_word spell (set_entry s g)
  = option_map (set_entry s) (check_word spell (set_entry t g)).
Proof.
  intros E. unfold check_word. cbn [entry set_entry timer_running required_length timer_label].
  rewrite E. destruct (timer_running g); simpl; [|reflexivity].
  destruct (Py.isalpha _); simpl; [|reflexivity].
  destruct (length_differs _ _); simpl; [reflexivity|].
  destruct (is_valid_word _ _); simpl; [|reflexivity].
  destruct (displayed_remaining _); reflexivity.
Qed.

(** C10: the entry is stripped of the spaces around it before any check: a
    word of letters between spaces, which as typed is not alphabetic, is
    checked and scored as the word alone. *)
Theorem submission_is_stripped_first (g : ScrabbleGame) (pre w post : string) :
  Py.all_chars Py.isspace_char pre = true ->
  Py.all_chars Py.isspace_char post = true ->
  Py.isalpha w = true ->
  Py.strip (pre ++ w ++ post) = w
  /\ (pre <> "" \/ post <> "" -> Py.isalpha (pre ++ w ++ post) = false)
  /\ check_word spell (set_entry (pre ++ w ++ post) g)
     = option_map (set_entry (pre ++ w ++ post)) (check_word spell (set_entry w g))
  /\ (forall remaining,
        timer_running g = true ->
        required_length g = Some (Py.len w) ->
        is_valid_word spell w = true ->
        timer_label g = timer_text remaining ->
        exists g',
          check_word spell (set_entry (pre ++ w ++ post) g) = Some g'
          /\ total_score g'
             = total_score g
               + (calculate_score w + calculate_time_bonus (15 - remaining))
          /\ text (warning_label g')
             = round_score_text (calculate_score w)
                 (calculate_time_bonus (15 - remaining))).
Proof.
  intros Hpre Hpost Hw.
  pose proof (strip_padded_word pre w post Hpre Hpost Hw) as Hstrip.
  split; [exact Hstrip|].
  split; [now apply padded_word_is_not_alpha|].
  split.
  - apply check_word_reads_stripped_entry.
    rewrite Hstrip. symmetry.
    apply (strip_padded_word "" w "" eq_refl eq_refl) in Hw.
    simpl in Hw. now rewrite PyFacts.append_nil_r in Hw.
  - intros remaining Hrun Hlen Hdict Hlabel.
    assert (Hvalid : validate spell
                       (Py.strip (entry (set_entry (pre ++ w ++ post) g)))
                       (required_length (set_entry (pre ++ w ++ post) g)) = Valid).
    { apply validate_valid. cbn [entry set_entry required_length].
      rewrite Hstrip. auto. }
    eexists. split.
    + apply (check_word_accepted _ remaining); [exact Hrun | exact Hvalid | exact Hlabel].
    + cbn [entry set_entry]. rewrite Hstrip. split; reflexivity.
Qed.

End Submissions.

(** ** The countdown thread and the timer flag *)

Lemma same_session_refl (g : ScrabbleGame) : same_session g g.
Proof. repeat split. Qed.

Lemma same_session_trans (g1 g2 g3 : ScrabbleGame) :
  same_session g1 g2 -> same_session g2 g3 -> same_session g1 g3.
Proof. unfold same_session. intuition congruence. Qed.

Lemma countdown_step_session (g : ScrabbleGame) : same_session g (countdown_step g).
Proof.
  unfold countdown_step.
  destruct (timer_thread g) as [[remaining| |]|];
    try destruct (stop_event g); repeat split.
Qed.

Lemma countdown_step_flags (g : ScrabbleGame) :
  timer_running (countdown_step g) = timer_running g
  /\ stop_event (countdown_step g) = stop_event g.
Proof.
  unfold countdown_step.
  destruct (timer_thread g) as [[remaining| |]|];
    try destruct (stop_event g) eqn:E; simpl; split; auto.
Qed.

Lemma run_thread_session (fuel : nat) (g : ScrabbleGame) :
  same_session g (run_thread fuel g)
  /\ timer_running (run_thread fuel g) = timer_running g.
Proof.
  revert g. induction fuel as [|fuel IH]; intros g; simpl.
  - split; [apply same_session_refl | reflexivity].
  - destruct (alive g); [|split; [apply same_session_refl | reflexivity]].
    destruct (IH (countdown_step g)) as [Hs Hr]. split.
    + eapply same_session_trans; [apply countdown_step_session | exact Hs].
    + rewrite Hr. apply countdown_step_flags.
Qed.

(** Once the stop event is set, the thread ends within two steps, without
    asking for a display and without timing out: [join] returns, and only
    the thread's own position has changed. *)
Lemma join_after_stop (g : ScrabbleGame) :
  has_thread g = true ->
  join (set_stop_event true g)
  = set_timer_thread (Some Finished) (set_stop_event true g).
Proof.
  destruct g as [rl ts cr mr tr se [[remaining| |]|] l1 l2 l3 l4 wl en pk fl aq];
    simpl; intros H; try discriminate; reflexivity.
Qed.

Lemma start_timer_restarts (g : ScrabbleGame) :
  timer_running g = true ->
  has_thread g = true ->
  start_timer g
  = set_timer_thread (Some (AtLoop 15))
      (set_timer_running true (set_stop_event false g)).
Proof.
  intros Hrun Hthread. unfold start_timer.
  rewrite Hrun, Hthread. simpl andb. cbv iota.
  rewrite (join_after_stop g Hthread). reflexivity.
Qed.

Lemma start_timer_session (g : ScrabbleGame) :
  same_session g (start_timer g)
  /\ timer_running (start_timer g) = true
  /\ stop_event (start_timer g) = false
  /\ timer_thread (start_timer g) = Some (AtLoop 15).
Proof.
  unfold start_timer.
  destruct (timer_running g && has_thread g).
  - destruct (run_thread_session 17 (set_stop_event true g)) as [Hs _].
    unfold join. repeat split; apply Hs.
  - repeat split.
Qed.

Lemma start_round_flag (drawn : Z) (g : ScrabbleGame) :
  timer_running g = true -> timer_running (start_round drawn g) = true.
Proof.
  intros Hrun. unfold start_round.
  destruct (current_round g <? max_rounds g); [|exact Hrun].
  apply start_timer_session.
Qed.

Lemma init_timer_running (drawn : Z) : timer_running (init drawn) = true.
Proof. reflexivity. Qed.

Lemma check_word_flag (spell : string -> bool) (g g' : ScrabbleGame) :
  check_word spell g = Some g' -> timer_running g' = timer_running g.
Proof.
  unfold check_word.
  destruct (timer_running g) eqn:Hrun; simpl; [|now intros [= <-]].
  destruct (Py.isalpha _); simpl; [|now intros [= <-]].
  destruct (length_differs _ _); simpl; [now intros [= <-]|].
  destruct (is_valid_word _ _); simpl; [|now intros [= <-]].
  destruct (displayed_remaining _); simpl; [now intros [= <-] | discriminate].
Qed.

Lemma step_flag (spell : string -> bool) (e : event) (g g' : ScrabbleGame) :
  timer_running g = true -> step spell e g = Some g' -> timer_running g' = true.
Proof.
  intros Hrun. destruct e as [|i drawn|s|]; simpl.
  - destruct (alive g); [|discriminate]. intros [= <-].
    now rewrite (proj1 (countdown_step_flags g)).
  - destruct (nth_error (after_queue g) i) as [[ms f]|]; simpl; [|discriminate].
    intros [= <-]. destruct f; simpl; [|exact Hrun].
    now apply start_round_flag.
  - destruct (packed g); [|discriminate]. now intros [= <-].
  - destruct (packed g); [|discriminate]. intros H.
    now rewrite (check_word_flag _ _ _ H).
Qed.

(** The timer flag is set by the first [start_timer] and never cleared:
    it is set in every state a game reaches. *)
Theorem timer_flag_stays_set (spell : string -> bool) (events : list event)
    (drawn : Z) (g : ScrabbleGame) :
  run spell events (init drawn) = Some g -> timer_running g = true.
Proof.
  generalize (init_timer_running drawn). generalize (init drawn).
  induction events as [|e events IH]; intros g0 Hrun; simpl.
  - now intros [= <-].
  - destruct (step spell e g0) as [g1|] eqn:E; simpl; [|discriminate].
    apply IH. exact (step_flag spell e g0 g1 Hrun E).
Qed.

Lemma timer_flag_stays_set_witness :
  option_map alive (run in_word_list until_expiry (init 7)) = Some false
  /\ option_map timer_running (run in_word_list until_expiry (init 7)) = Some true.
Proof.
  split; [vm_compute; reflexivity|].
  destruct (run in_word_list until_expiry (init 7)) as [g|] eqn:E.
  - simpl. f_equal. exact (timer_flag_stays_set _ _ _ _ E).
  - vm_compute in E. discriminate E.
Defined.

(** ** The timer and submissions *)

(** C7 (what the code does): [check_word] does not stop the timer when it
    accepts a word.  Cabbage accepted with 2 seconds on display leaves the
    stop event clear and the thread in its loop; while the score is shown
    the thread ticks again and times out, its text replaces the score, and
    two calls of [start_round] are pending, which take the game from round
    1 to round 3. *)
Theorem accepted_submission_does_not_stop_timer (spell : string -> bool) :
  spell "cabbage" = true ->
  exists g g' g'',
    run spell two_seconds_left (init 7) = Some g
    /\ current_round g = 1
    /\ timer_label g = timer_text 2
    /\ step spell Submit g = Some g'
    /\ total_score g' = 19
    /\ text (warning_label g') = "Score: 14 (Bonus: 5)"
    /\ stop_event g' = false
    /\ timer_thread g' = Some (AtLoop 1)
    /\ run spell timer_runs_out g' = Some g''
    /\ timer_thread g'' = Some Finished
    /\ text (warning_label g'') = "Time's up!"
    /\ after_queue g'' = [(2000, CallStartRound); (1000, CallStartRound)]
    /\ option_map current_round (run spell [Callback 0 5; Callback 0 4] g'')
       = Some 3.
Proof.
  intros Hdict. do 3 eexists.
  split; [vm_compute; reflexivity|].
  do 2 (split; [reflexivity|]).
  split.
  { unfold step. cbn [packed].
    apply (check_word_accepted spell _ 2); [reflexivity | | reflexivity].
    apply validate_valid. split; [reflexivity|]. split; [reflexivity|].
    exact Hdict. }
  do 4 (split; [vm_compute; reflexivity|]).
  split; [vm_compute; reflexivity|].
  do 3 (split; [reflexivity|]).
  vm_compute. reflexivity.
Qed.

Lemma accepted_submission_does_not_stop_timer_witness :
  exists g g' g'',
    run in_word_list two_seconds_left (init 7) = Some g
    /\ current_round g = 1
    /\ timer_label g = timer_text 2
    /\ step in_word_list Submit g = Some g'
    /\ total_score g' = 19
    /\ text (warning_label g') = "Score: 14 (Bonus: 5)"
    /\ stop_event g' = false
    /\ timer_thread g' = Some (AtLoop 1)
    /\ run in_word_list timer_runs_out g' = Some g''
    /\ timer_thread g'' = Some Finished
    /\ text (warning_label g'') = "Time's up!"
    /\ after_queue g'' = [(2000, CallStartRound); (1000, CallStartRound)]
    /\ option_map current_round
         (run in_word_list [Callback 0 5; Callback 0 4] g'') = Some 3.
Proof. exact (accepted_submission_does_not_stop_timer in_word_list eq_refl). Defined.

(** C8 (what the code does): [reset_game] zeroes the score and the round and
    then starts two rounds, one at the end of [setup_gui] and one itself, so
    the game is in round 2 with the second length drawn. *)
Theorem reset_game_starts_two_rounds (g : ScrabbleGame) (drawn1 drawn2 : Z) :
  2 <= max_rounds g ->
  total_score (reset_game drawn1 drawn2 g) = 0
  /\ current_round (reset_game drawn1 drawn2 g) = 2
  /\ required_length (reset_game drawn1 drawn2 g) = Some drawn2
  /\ current_round (setup_gui drawn1 (pack_forget_all
                      (set_current_round 0 (set_total_score 0 g)))) = 1.
Proof.
  intros Hmax.
  assert (Hfirst : forall h d, current_round h < max_rounds h ->
            total_score (start_round d h) = total_score h
            /\ current_round (start_round d h) = current_round h + 1
            /\ max_rounds (start_round d h) = max_rounds h
            /\ required_length (start_round d h) = Some d).
  { intros h d Hlt. apply Z.ltb_lt in Hlt. unfold start_round. rewrite Hlt.
    match goal with |- context [start_timer ?x] =>
      destruct (start_timer_session x) as ((Ht & Hc & Hm & Hr & _) & _)
    end.
    rewrite Ht, Hc, Hm, Hr. repeat split. }
  unfold reset_game.
  set (g3 := pack_forget_all (set_current_round 0 (set_total_score 0 g))).
  assert (H1 : total_score (setup_gui drawn1 g3) = 0
               /\ current_round (setup_gui drawn1 g3) = 1
               /\ max_rounds (setup_gui drawn1 g3) = max_rounds g).
  { unfold setup_gui.
    match goal with |- context [start_round drawn1 ?x] =>
      destruct (Hfirst x drawn1) as (Ht & Hc & Hm & _); [simpl; lia|];
        rewrite Ht, Hc, Hm
    end.
    repeat split. }
  destruct H1 as (Ht1 & Hc1 & Hm1).
  destruct (Hfirst (setup_gui drawn1 g3) drawn2) as (Ht & Hc & _ & Hr); [lia|].
  rewrite Ht, Hc, Hr, Ht1, Hc1. repeat split.
Qed.

Lemma reset_game_starts_two_rounds_witness :
  2 <= max_rounds (init 7)
  /\ total_score (reset_game 5 6 (init 7)) = 0
  /\ current_round (reset_game 5 6 (init 7)) = 2.
Proof.
  assert (Hmax : 2 <= max_rounds (init 7)) by (vm_compute; discriminate).
  split; [exact Hmax|].
  destruct (reset_game_starts_two_rounds (init 7) 5 6 Hmax) as (Ht & Hc & _).
  split; [exact Ht | exact Hc].
Defined.

(** C6 (what the code does): the timer flag is still set after the thread
    has timed out, so a submission made then is checked and scored like any
    other; cabbage, with 0 seconds displayed, adds 14 and the bonus 5. *)
Theorem submission_after_expiry_is_scored (spell : string -> bool) :
  spell "cabbage" = true ->
  exists g g',
    run spell (until_expiry ++ [Typing "cabbage"]) (init 7) = Some g
    /\ timer_thread g = Some Finished
    /\ text (warning_label g) = "Time's up!"
    /\ timer_label g = timer_text 0
    /\ timer_running g = true
    /\ total_score g = 0
    /\ step spell Submit g = Some g'
    /\ total_score g' = 19
    /\ text (warning_label g') = "Score: 14 (Bonus: 5)".
Proof.
  intros Hdict. eexists. eexists.
  split; [vm_compute; reflexivity|].
  do 5 (split; [reflexivity|]).
  split.
  - unfold step. cbn [packed].
    apply (check_word_accepted spell _ 0); [reflexivity | | reflexivity].
    apply validate_valid. split; [reflexivity|]. split; [reflexivity|].
    exact Hdict.
  - split; vm_compute; reflexivity.
Qed.

Lemma submission_after_expiry_is_scored_witness :
  exists g g',
    run in_word_list (until_expiry ++ [Typing "cabbage"]) (init 7) = Some g
    /\ timer_thread g = Some Finished
    /\ text (warning_label g) = "Time's up!"
    /\ timer_label g = timer_text 0
    /\ timer_running g = true
    /\ total_score g = 0
    /\ step in_word_list Submit g = Some g'
    /\ total_score g' = 19
    /\ text (warning_label g') = "Score: 14 (Bonus: 5)".
Proof. exact (submission_after_expiry_is_scored in_word_list eq_refl). Defined.

(** Early in the round it is the same: after two ticks cabbage is accepted
    (14 and the bonus 20), the stop event is clear, the thread is still in
    its loop, and its next step asks for the display of 13. *)
Remark accepted_submission_leaves_timer_ticking :
  exists g g' g'',
    run in_word_list (ticks 2 ++ [Typing "cabbage"]) (init 7) = Some g
    /\ step in_word_list Submit g = Some g'
    /\ total_score g' = total_score g + 34
    /\ text (warning_label g') = "Score: 14 (Bonus: 20)"
    /\ stop_event g' = false
    /\ timer_thread g' = Some (AtLoop 13)
    /\ step in_word_list ThreadStep g' = Some g''
    /\ after_queue g'' = (after_queue g' ++ [(0, CallTimerLabel 13)])%list.
Proof.
  do 3 eexists.
  split; [vm_compute; reflexivity|].
  split; [vm_compute; reflexivity|].
  do 4 (split; [reflexivity|]).
  split; [vm_compute; reflexivity|].
  reflexivity.
Qed.

Lemma valid_submission_adds_score_and_bonus_witness :
  15 - 4 = 11
  /\ calculate_time_bonus 11 = 5
  /\ exists g',
       check_word in_word_list
         (set_entry "cabbage" (set_timer_label "Time remaining: 4 seconds" (init 7)))
       = Some g'
       /\ total_score g'
          = total_score
              (set_entry "cabbage"
                 (set_timer_label "Time remaining: 4 seconds" (init 7))) + 19
       /\ text (warning_label g') = "Score: 14 (Bonus: 5)".
Proof.
  apply (proj2 (valid_submission_adds_score_and_bonus in_word_list)); reflexivity.
Defined.

Lemma validation_fails_fast_in_order_witness :
  Py.isalpha (Py.strip "1a") = false
  /\ Py.len (Py.strip "1a") <> 5
  /\ exists g',
       check_word in_word_list (set_entry "1a" (init 5)) = Some g'
       /\ text (warning_label g') = "Please enter only alphabetic characters."
       /\ text (warning_label g') <> "Word must be exactly 5 letters long.".
Proof.
  destruct (validation_fails_fast_in_order in_word_list
              (set_entry "1a" (init 5)) eq_refl) as (_ & _ & _ & H).
  apply H; reflexivity.
Defined.

Lemma rejected_submission_only_warns_witness :
  exists g',
    check_word in_word_list (set_entry "hi" (init 5)) = Some g'
    /\ warning_label g'
       = {| text := "Word must be exactly 5 letters long."; fg := "red" |}
    /\ total_score g' = total_score (set_entry "hi" (init 5))
    /\ current_round g' = current_round (set_entry "hi" (init 5)).
Proof.
  assert (Hfail : Py.isalpha (Py.strip (entry (set_entry "hi" (init 5)))) = false
                  \/ required_length (set_entry "hi" (init 5))
                     <> Some (Py.len (Py.strip (entry (set_entry "hi" (init 5)))))
                  \/ in_word_list
                       (Py.lower (Py.strip (entry (set_entry "hi" (init 5)))))
                     = false)
    by (right; left; discriminate).
  destruct (rejected_submission_only_warns in_word_list (set_entry "hi" (init 5))
              eq_refl Hfail)
    as (g' & Hcheck & Hwarn & Htotal & Hround & _).
  exists g'. split; [exact Hcheck|]. split; [exact Hwarn|].
  split; [exact Htotal | exact Hround].
Defined.

Lemma submission_is_stripped_first_witness :
  Py.strip "  cabbage " = "cabbage"
  /\ Py.isalpha "  cabbage " = false
  /\ check_word in_word_list (set_entry "  cabbage " (init 7))
     = option_map (set_entry "  cabbage ")
         (check_word in_word_list (set_entry "cabbage" (init 7))).
Proof.
  destruct (submission_is_stripped_first in_word_list (init 7)
              "  " "cabbage" " " eq_refl eq_refl eq_refl) as (Hs & Ha & Hc & _).
  split; [exact Hs|]. split; [apply Ha; left; discriminate | exact Hc].
Defined.

(** Once the game is over the widgets are off screen, so Submit cannot be
    pressed; the method itself, called on that state, still scores the
    word left in the entry, the timer flag being set as ever. *)
Remark check_word_after_game_over :
  exists g g',
    run in_word_list until_game_over (init 7) = Some g
    /\ current_round g = max_rounds g
    /\ final_score_labels g = ["Total Score: 0"]
    /\ step in_word_list Submit g = None
    /\ check_word in_word_list g = Some g'
    /\ total_score g' = total_score g + 19.
Proof.
  do 2 eexists.
  split; [vm_compute; reflexivity|].
  do 3 (split; [reflexivity|]).
  split; vm_compute; reflexivity.
Qed.

(** ** What every state of a game satisfies *)

Lemma calculate_score_nonneg (word : string) : 0 <= calculate_score word.
Proof.
  induction word as [|c word IH]; [vm_compute; discriminate|].
  rewrite calculate_score_cons.
  assert (0 <= Py.get letter_values (Py.upper_char c) 0)
    by (each_char c; vm_compute; discriminate).
  lia.
Qed.

Lemma calculate_time_bonus_nonneg (elapsed_time : Z) :
  0 <= calculate_time_bonus elapsed_time.
Proof.
  unfold calculate_time_bonus.
  repeat match goal with
         | |- context [?a <=? ?b] => destruct (Z.leb_spec a b)
         end; lia.
Qed.

Lemma consistent_init (drawn : Z) : consistent (init drawn).
Proof.
  constructor; try reflexivity; simpl; try lia.
  - exists 15. split; [lia | reflexivity].
  - constructor.
  - now exists drawn.
Qed.

Lemma consistent_has_thread (g : ScrabbleGame) : consistent g -> has_thread g = true.
Proof.
  intros [_ _ _ _ _ _ _ Ht _ _ _ _]. unfold has_thread.
  destruct (timer_thread g); [reflexivity | destruct Ht].
Qed.

Lemma consistent_countdown_step (g : ScrabbleGame) :
  consistent g -> consistent (countdown_step g).
Proof.
  intros [Hmax Hround Hflag Hstop Htotal Hlabel Hqueue Hthread Hsl Hrl Hlen Hll].
  unfold countdown_step. rewrite Hstop.
  destruct (timer_thread g) as [[remaining| |]|] eqn:E; simpl in Hthread.
  - constructor; simpl; auto.
    + apply Forall_app. split; [exact Hqueue|].
      constructor; [unfold label_in_range; simpl; lia | constructor].
    + destruct (Z.ltb_spec 0 (remaining - 1)); simpl; [lia | exact I].
  - constructor; simpl; auto.
    rewrite <- app_assoc. apply Forall_app. split; [exact Hqueue|].
    constructor; [unfold label_in_range; simpl; lia|]. constructor; [exact I | constructor].
  - constructor; auto. now rewrite E.
  - destruct Hthread.
Qed.

Lemma consistent_start_round (drawn : Z) (g : ScrabbleGame) :
  consistent g -> consistent (start_round drawn g).
Proof.
  intros Hg.
  pose proof (consistent_has_thread g Hg) as Hhas.
  destruct Hg as [Hmax Hround Hflag Hstop Htotal Hlabel Hqueue Hthread Hsl Hrl Hlen Hll].
  unfold start_round.
  destruct (Z.ltb_spec (current_round g) (max_rounds g)) as [Hlt|Hge].
  - rewrite start_timer_restarts; [|exact Hflag|exact Hhas].
    constructor; simpl; auto; try lia.
    now exists drawn.
  - constructor; simpl; auto.
Qed.

Lemma consistent_check_word (spell : string -> bool) (g g' : ScrabbleGame) :
  consistent g -> check_word spell g = Some g' -> consistent g'.
Proof.
  intros [Hmax Hround Hflag Hstop Htotal Hlabel Hqueue Hthread Hsl Hrl Hlen Hll].
  unfold check_word. rewrite Hflag. simpl.
  destruct (Py.isalpha _); simpl; [|intros [= <-]; constructor; auto].
  destruct (length_differs _ _); simpl; [intros [= <-]; constructor; auto|].
  destruct (is_valid_word _ _); simpl; [|intros [= <-]; constructor; auto].
  destruct (displayed_remaining _) as [remaining|]; simpl; [|discriminate].
  intros [= <-].
  pose proof (calculate_score_nonneg (Py.strip (entry g))) as Hbase.
  pose proof (calculate_time_bonus_nonneg (15 - remaining)) as Hbonus.
  set (base_score := calculate_score _) in *.
  set (time_bonus := calculate_time_bonus _) in *.
  clearbody base_score time_bonus.
  constructor; simpl; auto.
  - lia.
  - apply Forall_app. split; [exact Hqueue|]. constructor; [exact I | constructor].
Qed.

Lemma Forall_remove_nth {A : Type} (P : A -> Prop) (i : nat) (l : list A) :
  Forall P l -> Forall P (remove_nth i l).
Proof.
  intros H. unfold remove_nth. apply Forall_app. split.
  - apply Forall_forall. intros x Hx. rewrite Forall_forall in H.
    apply H. rewrite <- (firstn_skipn i l). apply in_or_app. now left.
  - apply Forall_forall. intros x Hx. rewrite Forall_forall in H.
    apply H. rewrite <- (firstn_skipn (S i) l). apply in_or_app. now right.
Qed.

Lemma consistent_step (spell : string -> bool) (e : event) (g g' : ScrabbleGame) :
  consistent g -> step spell e g = Some g' -> consistent g'.
Proof.
  intros Hg. destruct e as [|i drawn|s|]; simpl.
  - destruct (alive g); [|discriminate]. intros [= <-].
    now apply consistent_countdown_step.
  - destruct (nth_error (after_queue g) i) as [[ms f]|] eqn:E; simpl; [|discriminate].
    intros [= <-].
    assert (Hitem : label_in_range (ms, f)).
    { destruct Hg as [_ _ _ _ _ _ Hqueue _ _ _ _ _].
      rewrite Forall_forall in Hqueue. apply Hqueue. eapply nth_error_In, E. }
    assert (Hrest : consistent (set_after_queue (remove_nth i (after_queue g)) g)).
    { destruct Hg. constructor; simpl; auto. now apply Forall_remove_nth. }
    destruct f as [|remaining]; simpl.
    + now apply consistent_start_round.
    + destruct Hrest. constructor; simpl; auto.
      exists remaining. split; [exact Hitem | reflexivity].
  - destruct (packed g); [|discriminate]. intros [= <-].
    destruct Hg. constructor; auto.
  - destruct (packed g); [|discriminate]. now apply consistent_check_word.
Qed.

Lemma consistent_run (spell : string -> bool) (events : list event)
    (g g' : ScrabbleGame) :
  consistent g -> run spell events g = Some g' -> consistent g'.
Proof.
  revert g. induction events as [|e events IH]; intros g Hg; simpl.
  - now intros [= <-].
  - destruct (step spell e g) as [g1|] eqn:E; simpl; [|discriminate].
    apply IH. exact (consistent_step spell e g g1 Hg E).
Qed.

(** ** The score over a game *)

Lemma check_word_total (spell : string -> bool) (g g' : ScrabbleGame) :
  check_word spell g = Some g' ->
  total_score g <= total_score g'
  /\ current_round g' = current_round g
  /\ max_rounds g' = max_rounds g
  /\ required_length g' = required_length g
  /\ packed g' = packed g
  /\ final_score_labels g' = final_score_labels g.
Proof.
  unfold check_word.
  destruct (timer_running g); simpl; [|intros [= <-]; repeat split; lia].
  destruct (Py.isalpha _); simpl; [|intros [= <-]; repeat split; simpl; lia].
  destruct (length_differs _ _); simpl; [intros [= <-]; repeat split; simpl; lia|].
  destruct (is_valid_word _ _); simpl; [|intros [= <-]; repeat split; simpl; lia].
  destruct (displayed_remaining _) as [remaining|]; simpl; [|discriminate].
  intros [= <-].
  pose proof (calculate_score_nonneg (Py.strip (entry g))) as Hbase.
  pose proof (calculate_time_bonus_nonneg (15 - remaining)) as Hbonus.
  set (base_score := calculate_score _) in *.
  set (time_bonus := calculate_time_bonus _) in *.
  clearbody base_score time_bonus.
  repeat split. simpl. lia.
Qed.

Lemma countdown_step_screen (g : ScrabbleGame) :
  packed (countdown_step g) = packed g
  /\ final_score_labels (countdown_step g) = final_score_labels g.
Proof.
  unfold countdown_step.
  destruct (timer_thread g) as [[remaining| |]|];
    try destruct (stop_event g); split; reflexivity.
Qed.

Lemma start_round_session (drawn : Z) (g : ScrabbleGame) :
  total_score (start_round drawn g) = total_score g
  /\ max_rounds (start_round drawn g) = max_rounds g
  /\ current_round (start_round drawn g)
     = (if current_round g <? max_rounds g
        then current_round g + 1 else current_round g)
  /\ required_length (start_round drawn g)
     = (if current_round g <? max_rounds g
        then Some drawn else required_length g).
Proof.
  unfold start_round. destruct (current_round g <? max_rounds g).
  - match goal with |- context [start_timer ?x] =>
      destruct (start_timer_session x) as ((Ht & Hc & Hm & Hr & _) & _)
    end.
    rewrite Ht, Hc, Hm, Hr. repeat split.
  - repeat split.
Qed.

Lemma step_total (spell : string -> bool) (e : event) (g g' : ScrabbleGame) :
  step spell e g = Some g' ->
  total_score g <= total_score g'
  /\ (e <> Submit -> total_score g' = total_score g).
Proof.
  destruct e as [|i drawn|s|]; simpl.
  - destruct (alive g); [|discriminate]. intros [= <-].
    destruct (countdown_step_session g) as (Ht & _). rewrite Ht. split; [lia | auto].
  - destruct (nth_error (after_queue g) i) as [[ms f]|]; simpl; [|discriminate].
    intros [= <-]. destruct f as [|remaining]; simpl.
    + match goal with |- context [start_round drawn ?x] =>
        destruct (start_round_session drawn x) as (Ht & _)
      end.
      rewrite Ht. simpl. split; [lia | auto].
    + split; [lia | auto].
  - destruct (packed g); [|discriminate]. intros [= <-]. simpl. split; [lia | auto].
  - destruct (packed g); [|discriminate]. intros H.
    apply check_word_total in H as (H & _). split; [exact H | congruence].
Qed.

(** The total never goes down, whatever happens: thread steps, callbacks,
    typing and submissions, from any state. *)
Theorem total_score_never_decreases (spell : string -> bool)
    (events : list event) (g g' : ScrabbleGame) :
  run spell events g = Some g' -> total_score g <= total_score g'.
Proof.
  revert g. induction events as [|e events IH]; intros g; simpl.
  - intros [= <-]. lia.
  - destruct (step spell e g) as [g1|] eqn:E; simpl; [|discriminate].
    intros H. apply IH in H. apply step_total in E as (E & _). lia.
Qed.

Lemma total_score_never_decreases_witness :
  option_map total_score (run in_word_list one_scored_round (init 7)) = Some 34
  /\ option_map (Z.leb (total_score (init 7)) )
       (option_map total_score (run in_word_list one_scored_round (init 7)))
     = Some true.
Proof.
  split; [vm_compute; reflexivity|].
  destruct (run in_word_list one_scored_round (init 7)) as [g|] eqn:E.
  - simpl. f_equal. apply Z.leb_le.
    exact (total_score_never_decreases _ _ _ _ E).
  - vm_compute in E. discriminate E.
Defined.

(** Only a submission changes the total: a run without Submit, such as
    rounds that time out, leaves it as it was. *)
Theorem total_score_changes_only_on_submit (spell : string -> bool)
    (events : list event) (g g' : ScrabbleGame) :
  ~ In Submit events ->
  run spell events g = Some g' -> total_score g' = total_score g.
Proof.
  revert g. induction events as [|e events IH]; intros g Hno; simpl.
  - now intros [= <-].
  - destruct (step spell e g) as [g1|] eqn:E; simpl; [|discriminate].
    intros H. apply IH in H; [|intros Hin; apply Hno; now right].
    apply step_total in E as (_ & E).
    rewrite H. apply E. intros ->. apply Hno. now left.
Qed.

Lemma total_score_changes_only_on_submit_witness :
  option_map total_score
    (run in_word_list (timed_out_round 5 ++ timed_out_round 4) (init 7))
  = Some (total_score (init 7))
  /\ option_map current_round
       (run in_word_list (timed_out_round 5 ++ timed_out_round 4) (init 7))
     = Some 3.
Proof.
  split; [|vm_compute; reflexivity].
  destruct (run in_word_list (timed_out_round 5 ++ timed_out_round 4) (init 7))
    as [g|] eqn:E.
  - simpl. f_equal.
    refine (total_score_changes_only_on_submit _ _ _ _ _ E).
    vm_compute. intuition discriminate.
  - vm_compute in E. discriminate E.
Defined.

(** ** Every state of a game *)

(** The score, round and length labels always show the attributes: after
    any events of a game the three texts are the ones made from
    [total_score], [current_round] and [required_length]. *)
Theorem labels_show_the_state (spell : string -> bool) (events : list event)
    (drawn : Z) (g : ScrabbleGame) :
  run spell events (init drawn) = Some g ->
  score_label g = score_text (total_score g)
  /\ round_label g = round_text (current_round g) (max_rounds g)
  /\ required_length_label g = required_length_text (required_length g).
Proof.
  intros H. destruct (consistent_run spell events _ g (consistent_init drawn) H).
  auto.
Qed.

Lemma labels_show_the_state_witness :
  option_map score_label (run in_word_list one_scored_round (init 7))
  = option_map (fun g => score_text (total_score g))
      (run in_word_list one_scored_round (init 7))
  /\ option_map score_label (run in_word_list one_scored_round (init 7))
     = Some "Score: 34".
Proof.
  split; [|vm_compute; reflexivity].
  destruct (run in_word_list one_scored_round (init 7)) as [g|] eqn:E.
  - simpl. f_equal. exact (proj1 (labels_show_the_state _ _ _ _ E)).
  - vm_compute in E. discriminate E.
Defined.

(** The round counter stays within the ten rounds: in every state of a
    game it is between 1 and [max_rounds], which is 10. *)
Theorem round_stays_within_limit (spell : string -> bool) (events : list event)
    (drawn : Z) (g : ScrabbleGame) :
  run spell events (init drawn) = Some g ->
  max_rounds g = 10 /\ 1 <= current_round g <= max_rounds g.
Proof.
  intros H.
  destruct (consistent_run spell events _ g (consistent_init drawn) H)
    as [Hmax Hround _ _ _ _ _ _ _ _ _ _].
  rewrite Hmax. auto.
Qed.

Lemma round_stays_within_limit_witness :
  option_map current_round (run in_word_list until_game_over (init 7)) = Some 10
  /\ option_map (fun g => current_round g <=? max_rounds g)
       (run in_word_list until_game_over (init 7)) = Some true.
Proof.
  split; [vm_compute; reflexivity|].
  destruct (run in_word_list until_game_over (init 7)) as [g|] eqn:E.
  - simpl. f_equal. apply Z.leb_le.
    apply (round_stays_within_limit _ _ _ _ E).
  - vm_compute in E. discriminate E.
Defined.

(** A submission never raises: in every state of a game the timer label is
    a text [check_word] can read, showing a value from 0 to 15, so
    [check_word] returns a state. *)
Theorem check_word_never_raises (spell : string -> bool) (events : list event)
    (drawn : Z) (g : ScrabbleGame) :
  run spell events (init drawn) = Some g ->
  (exists remaining,
      0 <= remaining <= 15
      /\ displayed_remaining (timer_label g) = Some remaining)
  /\ exists g', check_word spell g = Some g'.
Proof.
  intros H.
  destruct (consistent_run spell events _ g (consistent_init drawn) H)
    as [_ _ Hflag _ _ (remaining & Hrange & Hlabel) _ _ _ _ _ _].
  split.
  - exists remaining. split; [exact Hrange|].
    rewrite Hlabel. apply displayed_remaining_timer_text.
  - destruct (validate spell (Py.strip (entry g)) (required_length g)) eqn:E.
    + eexists. apply (check_word_accepted spell g remaining Hflag E Hlabel).
    + eexists. apply (check_word_rejected spell g Hflag). congruence.
    + eexists. apply (check_word_rejected spell g Hflag). congruence.
    + eexists. apply (check_word_rejected spell g Hflag). congruence.
Qed.

Lemma check_word_never_raises_witness :
  option_map (fun g => displayed_remaining (timer_label g))
    (run in_word_list until_expiry (init 7)) = Some (Some 0)
  /\ option_map (fun g => match check_word in_word_list g with
                          | Some _ => true
                          | None => false
                          end)
       (run in_word_list until_expiry (init 7)) = Some true.
Proof.
  split; [vm_compute; reflexivity|].
  destruct (run in_word_list until_expiry (init 7)) as [g|] eqn:E.
  - simpl. f_equal.
    destruct (proj2 (check_word_never_raises _ _ _ _ E)) as [g' Hg'].
    now rewrite Hg'.
  - vm_compute in E. discriminate E.
Defined.

(** In a game the bonus of an accepted word is never 0: the displayed
    seconds are between 0 and 15, so the elapsed time is at most 15 and the
    word earns 5, 10 or 20 on top of its letters. *)
Theorem accepted_word_earns_a_bonus (spell : string -> bool)
    (events : list event) (drawn : Z) (g : ScrabbleGame) :
  run spell events (init drawn) = Some g ->
  Py.isalpha (Py.strip (entry g)) = true ->
  required_length g = Some (Py.len (Py.strip (entry g))) ->
  is_valid_word spell (Py.strip (entry g)) = true ->
  exists g' time_bonus,
    check_word spell g = Some g'
    /\ In time_bonus [5; 10; 20]
    /\ total_score g'
       = total_score g + (calculate_score (Py.strip (entry g)) + time_bonus)
    /\ total_score g + 5 <= total_score g'.
Proof.
  intros H Halpha Hlen Hdict.
  destruct (consistent_run spell events _ g (consistent_init drawn) H)
    as [_ _ Hflag _ _ (remaining & Hrange & Hlabel) _ _ _ _ _ _].
  assert (Hvalid : validate spell (Py.strip (entry g)) (required_length g) = Valid)
    by (apply validate_valid; auto).
  pose proof (calculate_score_nonneg (Py.strip (entry g))) as Hbase.
  assert (Hbonus : In (calculate_time_bonus (15 - remaining)) [5; 10; 20]).
  { unfold calculate_time_bonus.
    repeat match goal with
           | |- context [?a <=? ?b] => destruct (Z.leb_spec a b)
           end; simpl; auto; lia. }
  eexists. exists (calculate_time_bonus (15 - remaining)).
  split; [apply (check_word_accepted spell g remaining Hflag Hvalid Hlabel)|].
  split; [exact Hbonus|]. split; [reflexivity|].
  cbn [total_score show_score after set_after_queue set_warning_label
       set_score_label set_total_score].
  revert Hbonus Hbase.
  generalize (calculate_time_bonus (15 - remaining))
             (calculate_score (Py.strip (entry g))).
  intros time_bonus base_score [<-|[<-|[<-|[]]]] Hbase; lia.
Qed.

Lemma accepted_word_earns_a_bonus_witness :
  option_map total_score
    (run in_word_list (until_expiry ++ [Typing "cabbage"; Submit]) (init 7))
  = Some 19
  /\ option_map (fun g => match check_word in_word_list g with
                          | Some g' => total_score g + 5 <=? total_score g'
                          | None => false
                          end)
       (run in_word_list (until_expiry ++ [Typing "cabbage"]) (init 7))
     = Some true.
Proof.
  split; [vm_compute; reflexivity|].
  destruct (run in_word_list (until_expiry ++ [Typing "cabbage"]) (init 7))
    as [g|] eqn:E; [|vm_compute in E; discriminate E].
  simpl. f_equal.
  assert (Hentry : entry g = "cabbage" /\ required_length g = Some 7).
  { vm_compute in E. injection E as <-. split; reflexivity. }
  destruct Hentry as [Hentry Hlen].
  destruct (accepted_word_earns_a_bonus in_word_list _ _ g E)
    as (g' & time_bonus & Hcheck & _ & _ & Hle);
    rewrite ?Hentry; try reflexivity; [exact Hlen|].
  rewrite Hcheck. now apply Z.leb_le.
Defined.

(** Between two events the stop event is clear and there is a countdown
    thread, in its loop at a value from 1 to 15 or past it: the stop event
    is only ever set inside [start_timer], which clears it before it
    returns. *)
Theorem stop_event_is_clear_between_events (spell : string -> bool)
    (events : list event) (drawn : Z) (g : ScrabbleGame) :
  run spell events (init drawn) = Some g ->
  stop_event g = false /\ thread_in_range (timer_thread g).
Proof.
  intros H.
  destruct (consistent_run spell events _ g (consistent_init drawn) H)
    as [_ _ _ Hstop _ _ _ Hthread _ _ _ _].
  auto.
Qed.

Lemma stop_event_is_clear_between_events_witness :
  option_map stop_event (run in_word_list (timed_out_round 4) (init 7))
  = Some false
  /\ option_map timer_thread (run in_word_list (timed_out_round 4) (init 7))
     = Some (Some (AtLoop 15)).
Proof.
  split; [|vm_compute; reflexivity].
  destruct (run in_word_list (timed_out_round 4) (init 7)) as [g|] eqn:E.
  - simpl. f_equal. exact (proj1 (stop_event_is_clear_between_events _ _ _ _ E)).
  - vm_compute in E. discriminate E.
Defined.

(** ** Rounds *)

Lemma step_required_length (spell : string -> bool) (e : event)
    (g g' : ScrabbleGame) :
  step spell e g = Some g' ->
  required_length g' = required_length g
  \/ exists i drawn, e = Callback i drawn /\ required_length g' = Some drawn.
Proof.
  destruct e as [|i drawn|s|]; simpl.
  - destruct (alive g); [|discriminate]. intros [= <-].
    left. apply countdown_step_session.
  - destruct (nth_error (after_queue g) i) as [[ms f]|]; simpl; [|discriminate].
    intros [= <-]. destruct f as [|remaining]; simpl; [|now left].
    match goal with |- context [start_round drawn ?x] =>
      destruct (start_round_session drawn x) as (_ & _ & _ & Hr);
        destruct (current_round x <? max_rounds x)
    end.
    + right. exists i, drawn. auto.
    + left. exact Hr.
  - destruct (packed g); [|discriminate]. intros [= <-]. now left.
  - destruct (packed g); [|discriminate]. intros H.
    left. apply (check_word_total _ _ _ H).
Qed.

(** When every draw is one [random.randint(3, 7)] can make, the required
    length is a number from 3 to 7 in every state of the game. *)
Theorem required_length_in_range (spell : string -> bool) (events : list event)
    (drawn : Z) (g : ScrabbleGame) :
  3 <= drawn <= 7 ->
  draws_in_range events ->
  run spell events (init drawn) = Some g ->
  exists n, required_length g = Some n /\ 3 <= n <= 7.
Proof.
  intros Hdrawn.
  assert (Hinit : exists n, required_length (init drawn) = Some n /\ 3 <= n <= 7)
    by (exists drawn; split; [reflexivity | exact Hdrawn]).
  revert Hinit. generalize (init drawn).
  induction events as [|e events IH]; intros g0 Hg0 Hdraws; simpl.
  - now intros [= <-].
  - destruct (step spell e g0) as [g1|] eqn:E; simpl; [|discriminate].
    inversion Hdraws as [|e' events' He Hrest]; subst.
    apply IH; [|exact Hrest].
    destruct (step_required_length spell e g0 g1 E) as [Hsame | (i & d & -> & Hd)].
    + now rewrite Hsame.
    + exists d. split; [exact Hd | exact He].
Qed.

Lemma required_length_in_range_witness :
  option_map required_length
    (run in_word_list
       [ThreadStep; Callback 0 4; Typing "cabbage"; Submit; Callback 0 5] (init 7))
  = Some (Some 5)
  /\ option_map (fun g => match required_length g with
                          | Some n => (3 <=? n) && (n <=? 7)
                          | None => false
                          end)
       (run in_word_list
          [ThreadStep; Callback 0 4; Typing "cabbage"; Submit; Callback 0 5]
          (init 7))
     = Some true.
Proof.
  split; [vm_compute; reflexivity|].
  destruct (run in_word_list
              [ThreadStep; Callback 0 4; Typing "cabbage"; Submit; Callback 0 5]
              (init 7)) as [g|] eqn:E; [|vm_compute in E; discriminate E].
  simpl. f_equal.
  assert (Hdraws : draws_in_range
            [ThreadStep; Callback 0 4; Typing "cabbage"; Submit; Callback 0 5]).
  { unfold draws_in_range. repeat constructor; lia. }
  destruct (required_length_in_range in_word_list _ 7 g ltac:(lia) Hdraws E)
    as (n & Hn & Hrange).
  rewrite Hn. apply andb_true_intro. split; apply Z.leb_le; lia.
Defined.

(** [start_round] counts up to [max_rounds] and no further, and leaves the
    total alone: below the limit the round goes up by one, at the limit it
    stays and the final label shows the total. *)
Theorem start_round_counts_to_the_limit (drawn : Z) (g : ScrabbleGame) :
  current_round g <= max_rounds g ->
  current_round (start_round drawn g)
  = Z.min (current_round g + 1) (max_rounds g)
  /\ current_round (start_round drawn g) <= max_rounds (start_round drawn g)
  /\ total_score (start_round drawn g) = total_score g
  /\ (current_round g = max_rounds g ->
      final_score_labels (start_round drawn g) = [total_text (total_score g)]
      /\ packed (start_round drawn g) = false
      /\ start_round drawn (start_round drawn g) = start_round drawn g).
Proof.
  intros Hle.
  destruct (start_round_session drawn g) as (Ht & Hm & Hc & _).
  rewrite Ht, Hm, Hc.
  destruct (Z.ltb_spec (current_round g) (max_rounds g)) as [Hlt|Hge].
  - split; [lia|]. split; [lia|]. split; [reflexivity|]. intros Heq. lia.
  - split; [lia|]. split; [lia|]. split; [reflexivity|]. intros _.
    apply Z.ltb_ge in Hge. unfold start_round. rewrite Hge.
    split; [reflexivity|]. split; [reflexivity|].
    cbn [current_round max_rounds show_end_game_screen pack_forget_all
         set_final_score_labels set_packed].
    rewrite Hge. reflexivity.
Qed.

Lemma start_round_counts_to_the_limit_witness :
  current_round (init 7) <= max_rounds (init 7)
  /\ current_round (start_round 5 (init 7)) = 2.
Proof.
  assert (H : current_round (init 7) <= max_rounds (init 7))
    by (vm_compute; discriminate).
  split; [exact H|].
  rewrite (proj1 (start_round_counts_to_the_limit 5 (init 7) H)). reflexivity.
Defined.

Lemma run_thread_screen (fuel : nat) (g : ScrabbleGame) :
  packed (run_thread fuel g) = packed g
  /\ final_score_labels (run_thread fuel g) = final_score_labels g.
Proof.
  revert g. induction fuel as [|fuel IH]; intros g; simpl; [auto|].
  destruct (alive g); [|auto].
  destruct (IH (countdown_step g)) as [Hp Hf].
  destruct (countdown_step_screen g) as [Hp' Hf'].
  rewrite Hp, Hf. auto.
Qed.

Lemma join_screen (g : ScrabbleGame) : packed (join g) = packed g.
Proof. unfold join. apply run_thread_screen. Qed.

Lemma start_timer_screen (g : ScrabbleGame) : packed (start_timer g) = packed g.
Proof.
  unfold start_timer.
  destruct (timer_running g && has_thread g);
    cbn [packed set_timer_thread set_timer_running set_stop_event].
  - now rewrite join_screen.
  - reflexivity.
Qed.

Lemma start_round_screen (drawn : Z) (g : ScrabbleGame) :
  packed g = false -> packed (start_round drawn g) = false.
Proof.
  intros Hp. unfold start_round.
  destruct (current_round g <? max_rounds g); [|reflexivity].
  rewrite start_timer_screen. exact Hp.
Qed.

(** Once the widgets are off screen, as after the last round, the only
    events left are thread steps and callbacks, and none of them changes
    the total or brings the widgets back: the final score is final. *)
Theorem final_score_is_frozen (spell : string -> bool) (events : list event)
    (g g' : ScrabbleGame) :
  packed g = false ->
  run spell events g = Some g' ->
  total_score g' = total_score g /\ packed g' = false /\ ~ In Submit events.
Proof.
  revert g. induction events as [|e events IH]; intros g Hp; simpl.
  - intros [= <-]. auto.
  - destruct (step spell e g) as [g1|] eqn:E; simpl; [|discriminate].
    intros H.
    assert (He : e <> Submit /\ packed g1 = false).
    { destruct e as [|i drawn|s|]; simpl in E.
      - destruct (alive g); [|discriminate]. injection E as <-.
        split; [discriminate|]. now rewrite (proj1 (countdown_step_screen g)).
      - destruct (nth_error (after_queue g) i) as [[ms f]|]; simpl in E;
          [|discriminate].
        injection E as <-. split; [discriminate|].
        destruct f; simpl; [now apply start_round_screen | exact Hp].
      - rewrite Hp in E. discriminate.
      - rewrite Hp in E. discriminate. }
    destruct He as [He Hp1].
    destruct (IH g1 Hp1 H) as (Ht & Hp' & Hno).
    apply step_total in E as (_ & E).
    split; [rewrite Ht; now apply E|]. split; [exact Hp'|].
    intros [Hin|Hin]; [now apply He | now apply Hno].
Qed.

Lemma final_score_is_frozen_witness :
  option_map packed (run in_word_list until_game_won (init 7)) = Some false
  /\ option_map total_score
       (run in_word_list (until_game_won ++ until_expiry) (init 7))
     = Some 19.
Proof.
  split; [vm_compute; reflexivity|].
  assert (Hrun : run in_word_list (until_game_won ++ until_expiry) (init 7)
                 = match run in_word_list until_game_won (init 7) with
                   | Some g => run in_word_list until_expiry g
                   | None => None
                   end) by (vm_compute; reflexivity).
  rewrite Hrun.
  destruct (run in_word_list until_game_won (init 7)) as [g|] eqn:E;
    [|vm_compute in E; discriminate E].
  assert (Hg : packed g = false /\ total_score g = 19)
    by (vm_compute in E; injection E as <-; split; reflexivity).
  destruct Hg as [Hp Ht].
  destruct (run in_word_list until_expiry g) as [g'|] eqn:E';
    [|vm_compute in E; injection E as <-; vm_compute in E'; discriminate E'].
  simpl. f_equal. rewrite <- Ht.
  exact (proj1 (final_score_is_frozen _ _ _ _ Hp E')).
Defined.

(** ** An undisturbed countdown *)

Lemma run_thread_finished (fuel : nat) (g : ScrabbleGame) :
  alive g = false -> run_thread fuel g = g.
Proof. intros H. destruct fuel; simpl; [reflexivity | now rewrite H]. Qed.

(** From the head of the loop at [n], with the stop event clear, the thread
    takes [n] steps to leave the loop and asks for the displays of [n],
    ..., 1 on the way. *)
Lemma countdown_loop (n : nat) (g : ScrabbleGame) (fuel : nat) :
  timer_thread g = Some (AtLoop (Z.of_nat (S n))) ->
  stop_event g = false ->
  run_thread (S n + fuel) g
  = run_thread fuel
      (set_timer_thread (Some AfterLoop)
         (set_after_queue (after_queue g ++ countdown_requests (S n)) g)).
Proof.
  revert g. induction n as [|n IH]; intros g Hthread Hstop.
  - simpl Nat.add. cbn [run_thread]. unfold alive, countdown_step.
    rewrite Hthread, Hstop. reflexivity.
  - change (S (S n) + fuel)%nat with (S (S n + fuel)). cbn [run_thread].
    unfold alive at 1. rewrite Hthread.
    assert (Hstep : countdown_step g
                    = set_timer_thread (Some (AtLoop (Z.of_nat (S n))))
                        (update_timer_display (Z.of_nat (S (S n))) g)).
    { unfold countdown_step. rewrite Hthread, Hstop.
      replace (Z.of_nat (S (S n)) - 1) with (Z.of_nat (S n)) by lia.
      destruct (Z.ltb_spec 0 (Z.of_nat (S n))); [reflexivity | lia]. }
    rewrite Hstep, IH; [|reflexivity|exact Hstop].
    f_equal. unfold update_timer_display, after.
    cbn [after_queue set_after_queue set_timer_thread].
    rewrite <- app_assoc. reflexivity.
Qed.

(** A countdown that nothing stops runs to the end: from the head of the
    loop at [n] between 1 and 15, [join] returns with the thread finished,
    the displays of [n], ..., 1 and 0 asked for in that order, the time-out
    text shown, and [start_round] asked for once, a second later; score,
    round, required length and entry are untouched. *)
Theorem countdown_runs_to_expiry (n : nat) (g : ScrabbleGame) :
  (1 <= n <= 15)%nat ->
  timer_thread g = Some (AtLoop (Z.of_nat n)) ->
  stop_event g = false ->
  timer_thread (join g) = Some Finished
  /\ after_queue (join g)
     = (after_queue g ++ countdown_requests n
          ++ [(0, CallTimerLabel 0); (1000, CallStartRound)])%list
  /\ text (warning_label (join g)) = "Time's up!"
  /\ total_score (join g) = total_score g
  /\ current_round (join g) = current_round g
  /\ required_length (join g) = required_length g
  /\ entry (join g) = entry g.
Proof.
  intros Hn Hthread Hstop.
  destruct n as [|n]; [lia|].
  assert (Hjoin : join g
                  = run_thread (15 - n)
                      (set_timer_thread (Some Finished)
                         (after 1000 CallStartRound
                            (set_warning_label
                               (config_text "Time's up!" (warning_label g))
                               (update_timer_display 0
                                  (set_after_queue
                                     (after_queue g ++ countdown_requests (S n))
                                     g)))))).
  { unfold join. replace 17%nat with (S n + S (15 - n))%nat by lia.
    rewrite (countdown_loop n g _ Hthread Hstop).
    cbn [run_thread]. unfold alive at 1, countdown_step.
    cbn [timer_thread stop_event set_timer_thread set_after_queue negb].
    rewrite Hstop. reflexivity. }
  rewrite Hjoin, run_thread_finished by reflexivity.
  unfold after, update_timer_display, after.
  cbn [timer_thread after_queue warning_label total_score current_round
       required_length entry text set_timer_thread set_after_queue
       set_warning_label config_text].
  rewrite <- !app_assoc. repeat split.
Qed.

Lemma countdown_runs_to_expiry_witness :
  after_queue (join (init 7))
  = ((0, CallTimerLabel 15) :: (0, CallTimerLabel 14)
       :: skipn 2 (countdown_requests 15)
       ++ [(0, CallTimerLabel 0); (1000, CallStartRound)])%list
  /\ timer_thread (join (init 7)) = Some Finished.
Proof.
  destruct (countdown_runs_to_expiry 15 (init 7)) as (Ht & Hq & _);
    [lia | reflexivity | reflexivity |].
  split; [rewrite Hq; reflexivity | exact Ht].
Defined.

(** ** More on scoring *)

Lemma letter_value_bounds (c : ascii) :
  0 <= Py.get letter_values (Py.upper_char c) 0 <= 10.
Proof. each_char c; vm_compute; split; discriminate. Qed.

(** The score of a word is additive over concatenation and lies between 0
    and ten times the length of the word. *)
Theorem calculate_score_additive_and_bounded :
  (forall a b : string,
      calculate_score (a ++ b) = calculate_score a + calculate_score b)
  /\ (forall word : string,
        0 <= calculate_score word <= 10 * Py.len word).
Proof.
  split; [exact calculate_score_app|].
  induction word as [|c word IH]; [vm_compute; split; discriminate|].
  rewrite calculate_score_cons.
  pose proof (letter_value_bounds c) as Hc.
  unfold Py.len in *. cbn [String.length]. rewrite Nat2Z.inj_succ. lia.
Qed.

(** The bonus never grows with the elapsed time, and is one of 0, 5, 10
    and 20 for every integer, negative ones included (they earn 20). *)
Theorem calculate_time_bonus_monotone (e1 e2 : Z) :
  e1 <= e2 ->
  calculate_time_bonus e2 <= calculate_time_bonus e1
  /\ In (calculate_time_bonus e1) [0; 5; 10; 20]
  /\ (e1 < 0 -> calculate_time_bonus e1 = 20).
Proof.
  intros Hle. unfold calculate_time_bonus.
  repeat match goal with
         | |- context [?a <=? ?b] => destruct (Z.leb_spec a b)
         end; simpl; repeat split; auto; lia.
Qed.

Lemma calculate_time_bonus_monotone_witness :
  3 <= 12
  /\ calculate_time_bonus 12 <= calculate_time_bonus 3
  /\ calculate_time_bonus (-4) = 20.
Proof.
  assert (H : 3 <= 12) by lia.
  split; [exact H|].
  split; [exact (proj1 (calculate_time_bonus_monotone 3 12 H)) | reflexivity].
Defined.

(** What the display callback writes, [check_word] reads back: after the
    callback for [remaining] has run, the third word of the timer label
    converts to [remaining], for every integer. *)
Theorem timer_label_reads_back (remaining drawn : Z) (g : ScrabbleGame) :
  displayed_remaining
    (timer_label (run_callback (CallTimerLabel remaining) drawn g))
  = Some remaining.
Proof. apply displayed_remaining_timer_text. Qed.

(** ** Upper and lower case submissions *)

Lemma ascii_letter_cases (c : ascii) :
  Py.is_ascii_letter c = true ->
  Py.all_chars Py.is_ascii_letter (Py.upper_char c) = true
  /\ String.length (Py.upper_char c) = 1%nat
  /\ Py.lower (Py.upper_char c) = String (Py.lower_char c) ""
  /\ Py.is_ascii_letter (Py.lower_char c) = true
  /\ Py.lower_char (Py.lower_char c) = Py.lower_char c
  /\ Py.isalpha_char c = true.
Proof.
  each_char c; intros H; try discriminate H; clear H; vm_compute; repeat split.
Qed.

Lemma all_chars_app (p : ascii -> bool) (a b : string) :
  Py.all_chars p (a ++ b) = Py.all_chars p a && Py.all_chars p b.
Proof.
  induction a as [|c a IH]; simpl; [reflexivity|].
  now rewrite IH, andb_assoc.
Qed.

Lemma length_app (a b : string) :
  String.length (a ++ b) = (String.length a + String.length b)%nat.
Proof. induction a as [|c a IH]; simpl; [reflexivity | now rewrite IH]. Qed.

Lemma lower_app (a b : string) :
  Py.lower (a ++ b) = (Py.lower a ++ Py.lower b)%string.
Proof.
  unfold Py.lower. induction a as [|c a IH]; simpl; [reflexivity | now rewrite IH].
Qed.

Lemma ascii_word_cases (w : string) :
  Py.all_chars Py.is_ascii_letter w = true ->
  Py.all_chars Py.is_ascii_letter (Py.upper w) = true
  /\ Py.all_chars Py.is_ascii_letter (Py.lower w) = true
  /\ String.length (Py.upper w) = String.length w
  /\ String.length (Py.lower w) = String.length w
  /\ Py.lower (Py.upper w) = Py.lower w
  /\ Py.lower (Py.lower w) = Py.lower w
  /\ calculate_score (Py.upper w) = calculate_score w
  /\ calculate_score (Py.lower w) = calculate_score w.
Proof.
  induction w as [|c w IH]; intros Hw; [repeat split|].
  simpl in Hw. apply andb_prop in Hw as [Hc Hw].
  destruct (IH Hw) as (Hu & Hl & Hlu & Hll & Hlou & Hlol & Hsu & Hsl).
  destruct (ascii_letter_cases c Hc) as (Hcu & Hclen & Hclow & Hcl & Hcll & _).
  assert (Hupper : Py.upper (String c w) = (Py.upper_char c ++ Py.upper w)%string)
    by reflexivity.
  assert (Hlower : Py.lower (String c w) = String (Py.lower_char c) (Py.lower w))
    by reflexivity.
  rewrite Hupper, Hlower.
  split; [now rewrite all_chars_app, Hcu, Hu|].
  split; [cbn [Py.all_chars]; now rewrite Hcl, Hl|].
  split; [rewrite length_app, Hclen, Hlu; reflexivity|].
  split; [cbn [String.length]; now rewrite Hll|].
  split; [rewrite lower_app, Hclow, Hlou; reflexivity|].
  split.
  { change (String (Py.lower_char (Py.lower_char c)) (Py.lower (Py.lower w))
            = String (Py.lower_char c) (Py.lower w)).
    now rewrite Hcll, Hlol. }
  split.
  - rewrite calculate_score_app, (upper_char_score c Hc), Hsu.
    symmetry. apply (calculate_score_app (String c "") w).
  - change (String (Py.lower_char c) (Py.lower w))
      with (String (Py.lower_char c) "" ++ Py.lower w)%string.
    change (String c w) with (String c "" ++ w)%string.
    rewrite !calculate_score_app, lower_char_score, Hsl. reflexivity.
Qed.

Lemma ascii_word_strip (w : string) :
  w <> "" -> Py.all_chars Py.is_ascii_letter w = true ->
  Py.isalpha w = true /\ Py.strip w = w.
Proof.
  intros Hne Hw.
  assert (Halpha : Py.isalpha w = true).
  { destruct w as [|c w]; [congruence|].
    simpl. simpl in Hw. clear Hne. revert c Hw.
    induction w as [|d w IH]; intros c Hw; simpl in *;
      apply andb_prop in Hw as [Hc Hw];
      destruct (ascii_letter_cases c Hc) as (_ & _ & _ & _ & _ & Ha);
      rewrite Ha; simpl; [reflexivity | now apply IH]. }
  split; [exact Halpha|].
  pose proof (strip_padded_word "" w "" eq_refl eq_refl Halpha) as H.
  simpl in H. now rewrite PyFacts.append_nil_r in H.
Qed.

(** The case of the letters does not matter to a submission: for a word of
    the letters A-Z, submitting its upper case and submitting its lower case
    end in the same state, the entry apart; the same check fails, or the
    same score and bonus are added. *)
Theorem submission_ignores_case (spell : string -> bool) (g : ScrabbleGame)
    (w : string) :
  w <> "" ->
  Py.all_chars Py.is_ascii_letter w = true ->
  check_word spell (set_entry (Py.upper w) g)
  = option_map (set_entry (Py.upper w))
      (check_word spell (set_entry (Py.lower w) g)).
Proof.
  intros Hne Hw.
  destruct (ascii_word_cases w Hw) as (Hu & Hl & Hlu & Hll & Hlou & Hlol & Hsu & Hsl).
  assert (Hneu : Py.upper w <> "").
  { intros E. rewrite E in Hlu. destruct w; [congruence | discriminate]. }
  assert (Hnel : Py.lower w <> "").
  { intros E. rewrite E in Hll. destruct w; [congruence | discriminate]. }
  destruct (ascii_word_strip _ Hneu Hu) as [Hau Hstu].
  destruct (ascii_word_strip _ Hnel Hl) as [Hal Hstl].
  unfold check_word, is_valid_word.
  cbn [entry set_entry timer_running required_length timer_label].
  rewrite Hstu, Hstl, Hau, Hal, Hlou, Hlol, Hsu, Hsl.
  unfold Py.len. rewrite Hlu, Hll.
  destruct (timer_running g); simpl; [|reflexivity].
  destruct (length_differs _ _); simpl; [reflexivity|].
  destruct (spell _); simpl; [|reflexivity].
  destruct (displayed_remaining _); reflexivity.
Qed.

Lemma submission_ignores_case_witness :
  check_word in_word_list (set_entry "CABBAGE" (init 7))
  = option_map (set_entry "CABBAGE")
      (check_word in_word_list (set_entry "cabbage" (init 7)))
  /\ option_map total_score
       (check_word in_word_list (set_entry "CABBAGE" (init 7))) = Some 34.
Proof.
  split; [|vm_compute; reflexivity].
  apply (submission_ignores_case in_word_list (init 7) "caBBage");
    [discriminate | reflexivity].
Defined.

(** ** Reset *)






(** ** The unit tests *)

(** The assertions of the test suite hold on every game whose timer flag
    is set, with a dictionary that has cabbage and lacks quoxyz: equal
    scores in either case, the three warnings, and the three bonuses for 4,
    7 and 12 seconds left. *)
Theorem unit_tests_pass (spell : string -> bool) :
  spell "cabbage" = true ->
  spell "quoxyz" = false ->
  (calculate_score "apple" = 9 /\ calculate_score "orange" = 7
   /\ calculate_score "A" = calculate_score "a"
   /\ calculate_score "HELLO" = calculate_score "hello"
   /\ calculate_score "orange" = calculate_score "oRANGe")
  /\ forall g : ScrabbleGame,
       timer_running g = true ->
       (forall input, In input ["123"; "1a2b3"] -> entry g = input ->
          option_map (fun g' => text (warning_label g')) (check_word spell g)
          = Some "Please enter only alphabetic characters.")
       /\ (forall input, In input ["hi"; "orange"] -> entry g = input ->
           required_length g = Some 5 ->
           option_map (fun g' => text (warning_label g')) (check_word spell g)
           = Some "Word must be exactly 5 letters long.")
       /\ (entry g = "quoxyz" -> required_length g = Some 6 ->
           option_map (fun g' => text (warning_label g')) (check_word spell g)
           = Some "The word is not in the dictionary.")
       /\ (forall shown,
              In shown [("Time remaining: 4 seconds", "Score: 14 (Bonus: 5)");
                        ("Time remaining: 7 seconds", "Score: 14 (Bonus: 10)");
                        ("Time remaining: 12 seconds", "Score: 14 (Bonus: 20)")] ->
              entry g = "cabbage" -> required_length g = Some 7 ->
              timer_label g = fst shown ->
              option_map (fun g' => text (warning_label g')) (check_word spell g)
              = Some (snd shown)).
Proof.
  intros Hcabbage Hquoxyz.
  split; [repeat split|].
  intros g Hrun. unfold check_word, is_valid_word. rewrite Hrun.
  cbn [negb].
  split; [|split; [|split]].
  - intros input [<-|[<-|[]]] ->; reflexivity.
  - intros input [<-|[<-|[]]] -> ->; reflexivity.
  - intros -> ->.
    change (Py.lower (Py.strip "quoxyz")) with "quoxyz".
    rewrite Hquoxyz. reflexivity.
  - intros shown Hshown -> -> ->.
    change (Py.lower (Py.strip "cabbage")) with "cabbage".
    rewrite Hcabbage.
    destruct Hshown as [<-|[<-|[<-|[]]]]; reflexivity.
Qed.

Lemma unit_tests_pass_witness :
  in_word_list "cabbage" = true
  /\ in_word_list "quoxyz" = false
  /\ option_map (fun g' => text (warning_label g'))
       (check_word in_word_list (set_entry "hi" (init 5)))
     = Some "Word must be exactly 5 letters long.".
Proof.
  split; [reflexivity|]. split; [reflexivity|].
  destruct (unit_tests_pass in_word_list eq_refl eq_refl) as (_ & H).
  destruct (H (set_entry "hi" (init 5)) eq_refl) as (_ & Hlen & _).
  apply (Hlen "hi"); [now left | reflexivity | reflexivity].
Defined.
